(** * combined_planner: the CombinedPlannerNode mission supervisor

    A shallow embedding of [src/combined_planner/src/CombinedPlannerNode.cpp].
    The node is a C++ object whose methods mutate its members and call into
    external collaborators (tf, the path planner, the local costmap, the
    motion_control action client, ROS publishers).  The members become a
    record [Node]; the collaborators become an interface [Collab] of
    state-passing operations over an abstract [World]; every method is a
    computation in a small state-and-trace monad that threads the node and
    the world and records, in program order, every external call together
    with the value it returned. *)

From Stdlib Require Import String List Bool ZArith Lia Floats.
Import ListNotations.
Local Open Scope string_scope.
Local Open Scope Z_scope.
Local Open Scope list_scope.

Set Implicit Arguments.
Set Warnings "-inexact-float".

(** ** Message and value types *)

(** [lib_path::Pose2d]. *)
Module Pose2d.
Record t := mk { x : float; y : float; theta : float }.
End Pose2d.

(** [lib_path::Point2d]. *)
Module Point2d.
Record t := mk { x : float; y : float }.
End Point2d.

(** [ros::Time]. *)
Module Time.
Record t := mk { sec : Z; nsec : Z }.
Definition zero : t := mk 0 0.
End Time.

(** [std_msgs::Header]. *)
Module Header.
Record t := mk { seq : Z; stamp : Time.t; frame_id : string }.
Definition default : t := mk 0 Time.zero "".
Definition set_frame_id (s : string) (h : t) : t := mk (seq h) (stamp h) s.
Definition set_stamp (s : Time.t) (h : t) : t := mk (seq h) s (frame_id h).
End Header.

(** [geometry_msgs::Point] and [geometry_msgs::Vector3]. *)
Module Point.
Record t := mk { x : float; y : float; z : float }.
Definition default : t := mk 0%float 0%float 0%float.
End Point.

(** [geometry_msgs::Quaternion]. *)
Module Quaternion.
Record t := mk { x : float; y : float; z : float; w : float }.
Definition default : t := mk 0%float 0%float 0%float 0%float.
End Quaternion.

(** [geometry_msgs::Pose]. *)
Module Pose.
Record t := mk { position : Point.t; orientation : Quaternion.t }.
Definition default : t := mk Point.default Quaternion.default.
End Pose.

(** [geometry_msgs::PoseStamped]. *)
Module PoseStamped.
Record t := mk { header : Header.t; pose : Pose.t }.
Definition default : t := mk Header.default Pose.default.
End PoseStamped.

(** [geometry_msgs::TransformStamped], the message form of a
    [tf::StampedTransform] ([tf::transformStampedTFToMsg] copies the
    fields). *)
Module TransformStamped.
Record t := mk { header : Header.t; child_frame_id : string;
                   translation : Point.t; rotation : Quaternion.t }.
End TransformStamped.

(** [nav_msgs::Path]. *)
Module Path.
Record t := mk { header : Header.t; poses : list PoseStamped.t }.
Definition default : t := mk Header.default [].
End Path.

(** [nav_msgs::OccupancyGrid]. *)
Module OccupancyGrid.
Record t := mk { header : Header.t;
                   resolution : float; width : Z; height : Z;
                   origin : Pose.t;
                   data : list Z }.
Definition default : t :=
    mk Header.default 0%float 0 0 Pose.default [].
End OccupancyGrid.

(** [std_msgs::ColorRGBA]. *)
Module ColorRGBA.
Record t := mk { r : float; g : float; b : float; a : float }.
Definition default : t := mk 0%float 0%float 0%float 0%float.
End ColorRGBA.

(** [visualization_msgs::Marker], the fields the node writes. *)
Module Marker.
Inductive marker_type := LINE_STRIP | LINE_LIST.
Inductive marker_action := ADD.
Record t := mk { header : Header.t;
                   ns : string;
                   id : Z;
                   type : marker_type;
                   action : marker_action;
                   scale_x : float;
                   scale_y : float;
                   color : ColorRGBA.t;
                   points : list Point.t }.
End Marker.

(** [motion_control::MotionGoal], the fields the node writes. *)
Module MotionGoal.
Inductive mode_t := MOTION_FOLLOW_PATH.
Record t := mk { mode : mode_t;
                   path_topic : string;
                   path_poses : list PoseStamped.t;
                   v : float;
                   pos_tolerance : float }.
End MotionGoal.

(** The planner holds pointers to the node's two map wrappers, which in
    turn point at the node's own copies [gmap_cpy_] and [lmap_cpy_]
    ([gmap_wrapper_( &gmap_cpy_ )], [lmap_wrapper_( &lmap_cpy_ )]).  What
    the planner can read through those pointers at the time of a call is
    passed to it as a [MapStore]: the current contents of the node's
    copies and the thresholds set on the local wrapper. *)
Module MapStore.
Record t (Costmap2D : Type) :=
    mk { gmap : OccupancyGrid.t;
         lmap : Costmap2D;
         lmap_lower_threshold : Z;
         lmap_upper_threshold : Z }.
End MapStore.

(** Severity of a rosconsole statement. *)
Inductive LogLevel := INFO | WARN | ERROR.

(** ** The collaborators

    Everything the node calls but does not define: the parameter server,
    the clocks, the tf listener [tf_], the costmap [lmap_ros_], the
    planner [planner_], the action client [motion_ac_], the two
    publishers, and the pure library functions used to build messages.
    Each stateful operation takes the world before the call and returns
    its result with the world after it. *)
Class Collab := {
  World : Type;
  Costmap2D : Type;
  Costmap2D_default : Costmap2D;
  (* pure library functions *)
  tf_getYaw : Quaternion.t -> float;
  tf_createQuaternionMsgFromYaw : float -> Quaternion.t;
  libm_cos : float -> float;
  libm_sin : float -> float;
  (* parameter server and clocks *)
  n_param : string -> string -> World -> string * World;
  ros_Time_now : World -> Time.t * World;
  stopwatch_clock : World -> Z * World;
  (* tf_ *)
  tf_lookupTransform :
    string -> string -> Time.t -> World -> (string + TransformStamped.t) * World;
  tf_transformPose :
    string -> PoseStamped.t -> World -> (string + PoseStamped.t) * World;
  (* lmap_ros_ *)
  lmap_ros_clearRobotFootprint : World -> World;
  lmap_ros_getCostmapCopy : World -> Costmap2D * World;
  (* planner_ *)
  planner_setGlobalMap : MapStore.t Costmap2D -> World -> World;
  planner_setLocalMap : MapStore.t Costmap2D -> World -> World;
  planner_setGoal :
    MapStore.t Costmap2D -> Pose2d.t -> Pose2d.t -> World -> option string * World;
  planner_update :
    MapStore.t Costmap2D -> Pose2d.t -> bool -> World -> option string * World;
  planner_isGoalReached : Pose2d.t -> World -> bool * World;
  planner_hasValidPath : World -> bool * World;
  planner_hasNewLocalPath : World -> bool * World;
  planner_getLocalPath : World -> list Pose2d.t * World;
  planner_getGlobalPath : World -> list Point2d.t * World;
  planner_getGlobalWaypoints : World -> list Pose2d.t * World;
  (* motion_ac_ *)
  motion_ac_waitForServer : float -> World -> bool * World;
  motion_ac_sendGoal : MotionGoal.t -> World -> World;
  motion_ac_cancelAllGoals : World -> World;
  (* publishers and subscriptions *)
  n_subscribe : string -> Z -> World -> World;
  n_advertise : string -> Z -> World -> World;
  path_pub_publish : Path.t -> World -> World;
  visu_pub_publish : Marker.t -> World -> World
}.

(** Modelled from the spec: the class [Stopwatch] of
    [utils/LibUtil/Stopwatch.h], the type of the member [replan_timer_],
    is not among the sources.  The spec speaks of the time elapsed since
    the last forced replan, in milliseconds: a stopwatch holds the clock
    reading of its last [restart()], its constructor takes a first
    reading, and [msElapsed()] is the difference between the current
    reading and the stored one. *)
Module Stopwatch.
Record t := mk { start_ms : Z }.
(** Modelled from the spec: milliseconds elapsed since the last
    [restart()]. *)
Definition msElapsed (now_ms : Z) (s : t) : Z := now_ms - start_ms s.
End Stopwatch.

Section Node.
Context {C : Collab}.

Definition store : Type := MapStore.t Costmap2D.

(** ** External calls

    One constructor per call that leaves the node, with the arguments
    passed and, for calls that return or throw, the outcome.  A call that
    may throw the exception its caller catches returns [inl what] for the
    exception and [inr v] (or [None]) for normal completion.  [StoreActive]
    records an assignment to the member [active_], so that its order
    relative to the calls is visible. *)
Inductive Call :=
  | Log (lvl : LogLevel) (fmt : string) (args : list string)
  | NParam (name default_value result : string)
  | Subscribe (topic : string) (queue_size : Z)
  | Advertise (topic : string) (queue_size : Z)
  | TimeNow (result : Time.t)
  | StopwatchClock (ms : Z)
  | TfLookupTransform (target_frame source_frame : string) (time : Time.t)
                      (result : string + TransformStamped.t)
  | TfTransformPose (target_frame : string) (stamped_in : PoseStamped.t)
                    (result : string + PoseStamped.t)
  | LmapClearRobotFootprint
  | LmapGetCostmapCopy (result : Costmap2D)
  | PlannerSetGlobalMap (store : store)
  | PlannerSetLocalMap (store : store)
  | PlannerSetGoal (store : store) (path_start path_end : Pose2d.t)
                   (thrown : option string)
  | PlannerUpdate (store : store) (robot_pose : Pose2d.t)
                  (force_replan : bool) (thrown : option string)
  | PlannerIsGoalReached (robot_pose : Pose2d.t) (result : bool)
  | PlannerHasValidPath (result : bool)
  | PlannerHasNewLocalPath (result : bool)
  | PlannerGetLocalPath (result : list Pose2d.t)
  | PlannerGetGlobalPath (result : list Point2d.t)
  | PlannerGetGlobalWaypoints (result : list Pose2d.t)
  | MotionWaitForServer (timeout : float) (result : bool)
  | MotionSendGoal (goal : MotionGoal.t)
  | MotionCancelAllGoals
  | PathPublish (msg : Path.t)
  | VisuPublish (msg : Marker.t)
  | StoreActive (value : bool).

(** ** The node's members *)
Record Node := mkNode {
    map_topic_ : string;
    goal_topic_ : string;
    path_topic_ : string;
    lmap_cpy_ : Costmap2D;
    lmap_lower_threshold_ : Z;
    lmap_upper_threshold_ : Z;
    gmap_cpy_ : OccupancyGrid.t;
    gmap_frame_id_ : string;
    got_map_ : bool;
    replan_timer_ : Stopwatch.t;
    active_ : bool
  }.

Definition set_map_topic_ (v : string) (n : Node) : Node :=
    mkNode v (goal_topic_ n) (path_topic_ n) (lmap_cpy_ n)
           (lmap_lower_threshold_ n) (lmap_upper_threshold_ n)
           (gmap_cpy_ n) (gmap_frame_id_ n) (got_map_ n) (replan_timer_ n)
           (active_ n).
Definition set_goal_topic_ (v : string) (n : Node) : Node :=
    mkNode (map_topic_ n) v (path_topic_ n) (lmap_cpy_ n)
           (lmap_lower_threshold_ n) (lmap_upper_threshold_ n)
           (gmap_cpy_ n) (gmap_frame_id_ n) (got_map_ n) (replan_timer_ n)
           (active_ n).
Definition set_path_topic_ (v : string) (n : Node) : Node :=
    mkNode (map_topic_ n) (goal_topic_ n) v (lmap_cpy_ n)
           (lmap_lower_threshold_ n) (lmap_upper_threshold_ n)
           (gmap_cpy_ n) (gmap_frame_id_ n) (got_map_ n) (replan_timer_ n)
           (active_ n).
Definition set_lmap_lower_threshold_ (v : Z) (n : Node) : Node :=
    mkNode (map_topic_ n) (goal_topic_ n) (path_topic_ n) (lmap_cpy_ n)
           v (lmap_upper_threshold_ n)
           (gmap_cpy_ n) (gmap_frame_id_ n) (got_map_ n) (replan_timer_ n)
           (active_ n).
Definition set_lmap_upper_threshold_ (v : Z) (n : Node) : Node :=
    mkNode (map_topic_ n) (goal_topic_ n) (path_topic_ n) (lmap_cpy_ n)
           (lmap_lower_threshold_ n) v
           (gmap_cpy_ n) (gmap_frame_id_ n) (got_map_ n) (replan_timer_ n)
           (active_ n).
Definition set_lmap_cpy_ (v : Costmap2D) (n : Node) : Node :=
    mkNode (map_topic_ n) (goal_topic_ n) (path_topic_ n) v
           (lmap_lower_threshold_ n) (lmap_upper_threshold_ n)
           (gmap_cpy_ n) (gmap_frame_id_ n) (got_map_ n) (replan_timer_ n)
           (active_ n).
Definition set_gmap_cpy_ (v : OccupancyGrid.t) (n : Node) : Node :=
    mkNode (map_topic_ n) (goal_topic_ n) (path_topic_ n) (lmap_cpy_ n)
           (lmap_lower_threshold_ n) (lmap_upper_threshold_ n)
           v (gmap_frame_id_ n) (got_map_ n) (replan_timer_ n) (active_ n).
Definition set_gmap_frame_id_ (v : string) (n : Node) : Node :=
    mkNode (map_topic_ n) (goal_topic_ n) (path_topic_ n) (lmap_cpy_ n)
           (lmap_lower_threshold_ n) (lmap_upper_threshold_ n)
           (gmap_cpy_ n) v (got_map_ n) (replan_timer_ n) (active_ n).
Definition set_got_map_ (v : bool) (n : Node) : Node :=
    mkNode (map_topic_ n) (goal_topic_ n) (path_topic_ n) (lmap_cpy_ n)
           (lmap_lower_threshold_ n) (lmap_upper_threshold_ n)
           (gmap_cpy_ n) (gmap_frame_id_ n) v (replan_timer_ n) (active_ n).
Definition set_replan_timer_ (v : Stopwatch.t) (n : Node) : Node :=
    mkNode (map_topic_ n) (goal_topic_ n) (path_topic_ n) (lmap_cpy_ n)
           (lmap_lower_threshold_ n) (lmap_upper_threshold_ n)
           (gmap_cpy_ n) (gmap_frame_id_ n) (got_map_ n) v (active_ n).
Definition set_active_ (v : bool) (n : Node) : Node :=
    mkNode (map_topic_ n) (goal_topic_ n) (path_topic_ n) (lmap_cpy_ n)
           (lmap_lower_threshold_ n) (lmap_upper_threshold_ n)
           (gmap_cpy_ n) (gmap_frame_id_ n) (got_map_ n) (replan_timer_ n) v.

(** What the planner reads through [&gmap_wrapper_] and
      [&lmap_wrapper_]. *)
Definition map_store (n : Node) : store :=
    MapStore.mk (gmap_cpy_ n) (lmap_cpy_ n)
                (lmap_lower_threshold_ n) (lmap_upper_threshold_ n).

(** ** The monad: node and world in, value, node, world and the calls
      made out. *)
Definition M (A : Type) : Type := Node -> World -> A * Node * World * list Call.

Definition ret {A} (a : A) : M A := fun n w => (a, n, w, []).
Definition bind {A B} (m : M A) (k : A -> M B) : M B :=
    fun n w =>
      let '(a, n1, w1, t1) := m n w in
      let '(b, n2, w2, t2) := k a n1 w1 in
      (b, n2, w2, t1 ++ t2).

(** A call that returns a value. *)
Definition ask {A} (op : World -> A * World) (ev : A -> Call) : M A :=
    fun n w => let '(a, w1) := op w in (a, n, w1, [ev a]).
(** A call that returns nothing. *)
Definition tell (op : World -> World) (ev : Call) : M unit :=
    fun n w => (tt, n, op w, [ev]).
(** rosconsole output. *)
Definition log (lvl : LogLevel) (fmt : string) (args : list string) : M unit :=
    fun n w => (tt, n, w, [Log lvl fmt args]).
Definition get : M Node := fun n w => (n, n, w, []).
Definition modify (f : Node -> Node) : M unit := fun n w => (tt, f n, w, []).
(** [active_ = v;] *)
Definition store_active (v : bool) : M unit :=
    fun n w => (tt, set_active_ v n, w, [StoreActive v]).
End Node.

Declare Scope planner_scope.
Notation "x <- m ;; k" := (bind m (fun x => k))
  (at level 61, m at next level, right associativity) : planner_scope.
Notation "m ;; k" := (bind m (fun _ => k))
  (at level 61, right associativity) : planner_scope.


Local Open Scope planner_scope.

(** ** The methods of [CombinedPlannerNode] *)
Section Methods.
Context {C : Collab}.

(** The loop body shared by [plannerPathToRos] and [publishLocalPath]:
    [pose] is declared once outside the loop, so its header and
    [position.z] keep their default values in every element pushed. *)
Definition pose_of_planner (it : Pose2d.t) : PoseStamped.t :=
  PoseStamped.mk Header.default
    (Pose.mk (Point.mk (Pose2d.x it) (Pose2d.y it) 0%float)
             (tf_createQuaternionMsgFromYaw (Pose2d.theta it))).

(** [plannerPathToRos( planner_p, ros_p )] appends to [ros_p]. *)
Definition plannerPathToRos (planner_p : list Pose2d.t)
    (ros_p : list PoseStamped.t) : list PoseStamped.t :=
  ros_p ++ map pose_of_planner planner_p.

(** [publishLocalPath( path )]. *)
Definition publishLocalPath (path : list Pose2d.t) : M unit :=
  n <- get ;;
  now <- ask ros_Time_now TimeNow ;;
  let path_msg :=
    Path.mk (Header.set_stamp now
               (Header.set_frame_id (gmap_frame_id_ n) Header.default))
            (map pose_of_planner path) in
  tell (path_pub_publish path_msg) (PathPublish path_msg).

(** [publishEmptyLocalPath()]. *)
Definition publishEmptyLocalPath : M unit :=
  n <- get ;;
  now <- ask ros_Time_now TimeNow ;;
  let path_msg :=
    Path.mk (Header.set_stamp now
               (Header.set_frame_id (gmap_frame_id_ n) Header.default))
            [] in
  tell (path_pub_publish path_msg) (PathPublish path_msg).

(** [getRobotPose( pose, map_frame )]: [Some pose] for [true] with the
    out-parameter written, [None] for [false]. *)
Definition getRobotPose (map_frame : string) : M (option Pose2d.t) :=
  r <- ask (tf_lookupTransform map_frame "/base_link" Time.zero)
           (TfLookupTransform map_frame "/base_link" Time.zero) ;;
  match r with
  | inl what =>
      log ERROR "Error getting the robot position. Reason: %s" [what] ;;
      ret None
  | inr msg =>
      ret (Some (Pose2d.mk
                   (Point.x (TransformStamped.translation msg))
                   (Point.y (TransformStamped.translation msg))
                   (tf_getYaw (TransformStamped.rotation msg))))
  end.

(** [deactivate()]. *)
Definition deactivate : M unit :=
  log INFO "Deactivating path planner." [] ;;
  tell motion_ac_cancelAllGoals MotionCancelAllGoals ;;
  store_active false ;;
  publishEmptyLocalPath.

(** [activate()].  The completion callback bound into [sendGoal] is
    [motionCtrlDoneCB], whose body is empty. *)
Definition activate : M unit :=
  n <- get ;;
  (if active_ n then deactivate else ret tt) ;;
  ready <- ask (motion_ac_waitForServer 1.0%float)
               (MotionWaitForServer 1.0%float) ;;
  if negb ready then
    log WARN "Motion control action server didn't connect within 1.0 seconds" []
  else
    store_active true ;;
    n <- get ;;
    lpath <- ask planner_getLocalPath PlannerGetLocalPath ;;
    let motionGoal :=
      MotionGoal.mk MotionGoal.MOTION_FOLLOW_PATH (path_topic_ n)
                    (plannerPathToRos lpath []) 0.7%float 0.20%float in
    tell (motion_ac_sendGoal motionGoal) (MotionSendGoal motionGoal).

(** [motionCtrlDoneCB( state, result )]: nothing but a todo note. *)
Definition motionCtrlDoneCB : M unit := ret tt.

(** [replan_timer_.restart()]. *)
Definition replan_timer_restart : M unit :=
  t <- ask stopwatch_clock StopwatchClock ;;
  modify (set_replan_timer_ (Stopwatch.mk t)).

(** [lmap_ros_.getCostmapCopy( lmap_cpy_ )]. *)
Definition getCostmapCopy : M unit :=
  cm <- ask lmap_ros_getCostmapCopy LmapGetCostmapCopy ;;
  modify (set_lmap_cpy_ cm).

(** [0.1f] widened to the [double] of [marker.scale]. *)
Definition scale_0_1f : float := 0x1.99999ap-4%float.

(** [visualizePath( path, ns, color, id )]. *)
Definition visualizePath (path : list Point2d.t) (ns : string)
    (color id : Z) : M unit :=
  n <- get ;;
  now <- ask ros_Time_now TimeNow ;;
  let marker :=
    Marker.mk
      (Header.set_stamp now
         (Header.set_frame_id (gmap_frame_id_ n) Header.default))
      ns id Marker.LINE_STRIP Marker.ADD
      scale_0_1f scale_0_1f
      (if negb (color =? 1)
       then ColorRGBA.mk 1%float 0%float 0%float 0.75%float
       else ColorRGBA.mk 0%float 0%float 1%float 0.75%float)
      (map (fun it => Point.mk (Point2d.x it) (Point2d.y it) 0%float) path) in
  tell (visu_pub_publish marker) (VisuPublish marker).

(** The two points pushed per waypoint by [visualizeWaypoints]. *)
Definition waypoint_points (it : Pose2d.t) : list Point.t :=
  [ Point.mk (Pose2d.x it) (Pose2d.y it) 0%float;
    Point.mk (Pose2d.x it + 0.8 * libm_cos (Pose2d.theta it))%float
             (Pose2d.y it + 0.8 * libm_sin (Pose2d.theta it))%float
             0%float ].

(** [visualizeWaypoints( wp, ns, id )]. *)
Definition visualizeWaypoints (wp : list Pose2d.t) (ns : string)
    (id : Z) : M unit :=
  n <- get ;;
  now <- ask ros_Time_now TimeNow ;;
  let marker :=
    Marker.mk
      (Header.set_stamp now
         (Header.set_frame_id (gmap_frame_id_ n) Header.default))
      ns id Marker.LINE_LIST Marker.ADD
      scale_0_1f 0%float
      (ColorRGBA.mk 0%float 1%float 0%float 1%float)
      (flat_map waypoint_points wp) in
  tell (visu_pub_publish marker) (VisuPublish marker).

(** [update()], called once per turn of the main loop. *)
Definition update : M unit :=
  n <- get ;;
  if negb (active_ n) then ret tt
  else
    pose <- getRobotPose (gmap_frame_id_ n) ;;
    match pose with
    | None => deactivate
    | Some robot_pose =>
        reached <- ask (planner_isGoalReached robot_pose)
                       (PlannerIsGoalReached robot_pose) ;;
        if reached then
          log INFO "Goal reached." [] ;;
          deactivate ;;
          store_active false
        else
          tell lmap_ros_clearRobotFootprint LmapClearRobotFootprint ;;
          getCostmapCopy ;;
          n <- get ;;
          tell (planner_setLocalMap (map_store n))
               (PlannerSetLocalMap (map_store n)) ;;
          thrown <- ask (planner_update (map_store n) robot_pose false)
                        (PlannerUpdate (map_store n) robot_pose false) ;;
          match thrown with
          | Some what =>
              log ERROR "Error planning a path. Reason: %s" [what] ;;
              deactivate ;;
              store_active false
          | None =>
              valid <- ask planner_hasValidPath PlannerHasValidPath ;;
              if negb valid then deactivate
              else
                fresh <- ask planner_hasNewLocalPath PlannerHasNewLocalPath ;;
                if negb fresh then ret tt
                else
                  log INFO "Publishing new local path" [] ;;
                  lpath <- ask planner_getLocalPath PlannerGetLocalPath ;;
                  publishLocalPath lpath ;;
                  replan_timer_restart ;;
                  wp <- ask planner_getGlobalWaypoints
                            PlannerGetGlobalWaypoints ;;
                  visualizeWaypoints wp "waypoints" 3
          end
    end.

(** [updateMap( map )]. *)
Definition updateMap (map : OccupancyGrid.t) : M unit :=
  modify (set_gmap_cpy_ map) ;;
  modify (set_gmap_frame_id_ "/map") ;;
  modify (set_got_map_ true).

(** [updateGoal( goal )]. *)
Definition updateGoal (goal : PoseStamped.t) : M unit :=
  log INFO "Got a new goal" [] ;;
  deactivate ;;
  n <- get ;;
  converted <-
    (if negb (Header.frame_id (PoseStamped.header goal) =? gmap_frame_id_ n)%string
     then
       r <- ask (tf_transformPose (gmap_frame_id_ n) goal)
                (TfTransformPose (gmap_frame_id_ n) goal) ;;
       match r with
       | inl what =>
           log ERROR "Cannot transform goal into map coordinates. Reason: %s"
               [what] ;;
           ret None
       | inr goal_map => ret (Some goal_map)
       end
     else ret (Some goal)) ;;
  match converted with
  | None => ret tt
  | Some goal_map =>
      pose <- getRobotPose (gmap_frame_id_ n) ;;
      match pose with
      | None => ret tt
      | Some robot_pose =>
          n <- get ;;
          tell (planner_setGlobalMap (map_store n))
               (PlannerSetGlobalMap (map_store n)) ;;
          tell lmap_ros_clearRobotFootprint LmapClearRobotFootprint ;;
          getCostmapCopy ;;
          n <- get ;;
          tell (planner_setLocalMap (map_store n))
               (PlannerSetLocalMap (map_store n)) ;;
          let pathStart := robot_pose in
          let pathEnd :=
            Pose2d.mk
              (Point.x (Pose.position (PoseStamped.pose goal_map)))
              (Point.y (Pose.position (PoseStamped.pose goal_map)))
              (tf_getYaw (Pose.orientation (PoseStamped.pose goal_map))) in
          thrown <- ask (planner_setGoal (map_store n) pathStart pathEnd)
                        (PlannerSetGoal (map_store n) pathStart pathEnd) ;;
          match thrown with
          | Some what => log ERROR "Cannot plan a path. Reason: %s" [what]
          | None =>
              valid <- ask planner_hasValidPath PlannerHasValidPath ;;
              if negb valid then log WARN "No path found!" []
              else
                activate ;;
                path_raw <- ask planner_getGlobalPath PlannerGetGlobalPath ;;
                visualizePath path_raw "global_path" 1 1 ;;
                wp <- ask planner_getGlobalWaypoints
                          PlannerGetGlobalWaypoints ;;
                visualizeWaypoints wp "waypoints" 3 ;;
                log INFO "Goal updated." []
          end
      end
  end.

(** The members as the initialiser list and the default constructors
    leave them, before the constructor body runs. *)
Definition Node_initial (timer : Stopwatch.t) : Node :=
  mkNode "" "" "" Costmap2D_default 0 0 OccupancyGrid.default "" false
         timer false.

(** The body of [CombinedPlannerNode::CombinedPlannerNode()]. *)
Definition CombinedPlannerNode_body : M unit :=
  v <- ask (n_param "map_topic" "/map_inflated")
           (NParam "map_topic" "/map_inflated") ;;
  modify (set_map_topic_ v) ;;
  v <- ask (n_param "goal_topic" "/goal") (NParam "goal_topic" "/goal") ;;
  modify (set_goal_topic_ v) ;;
  v <- ask (n_param "path_topic" "/path") (NParam "path_topic" "/path") ;;
  modify (set_path_topic_ v) ;;
  modify (set_lmap_lower_threshold_ 128) ;;
  modify (set_lmap_upper_threshold_ 250) ;;
  n <- get ;;
  tell (n_subscribe (map_topic_ n) 1) (Subscribe (map_topic_ n) 1) ;;
  tell (n_subscribe (goal_topic_ n) 1) (Subscribe (goal_topic_ n) 1) ;;
  tell (n_advertise (path_topic_ n) 5) (Advertise (path_topic_ n) 5) ;;
  tell (n_advertise "visualization_markers" 5)
       (Advertise "visualization_markers" 5).

(** Construction: the stopwatch member takes its first clock reading,
    then the body runs on the freshly initialised members. *)
Definition CombinedPlannerNode (w : World) : Node * World * list Call :=
  let '(t, w1) := stopwatch_clock w in
  let '(_, n, w2, tr) := CombinedPlannerNode_body (Node_initial (Stopwatch.mk t)) w1 in
  (n, w2, StopwatchClock t :: tr).

(** ** The event loop

    [main] alternates [ros::spinOnce()], which delivers the queued map and
    goal messages to [updateMap] and [updateGoal], with [node.update()].
    A run of the node is therefore a sequence of these three events. *)
Inductive Event :=
| MapMsg (map : OccupancyGrid.t)
| GoalMsg (goal : PoseStamped.t)
| Tick.

Definition handle (e : Event) : M unit :=
  match e with
  | MapMsg map => updateMap map
  | GoalMsg goal => updateGoal goal
  | Tick => update
  end.

Fixpoint run (es : list Event) : M unit :=
  match es with
  | [] => ret tt
  | e :: es' => handle e ;; run es'
  end.

(** A run from construction: the node, the world and every call made
    since the process started. *)
Definition run_main (es : list Event) (w : World) : Node * World * list Call :=
  let '(n, w1, tr0) := CombinedPlannerNode w in
  let '(_, n', w2, tr) := run es n w1 in
  (n', w2, tr0 ++ tr).

End Methods.

(** ** Reading a result and its trace *)
Section Traces.
Context {C : Collab}.

Definition node_of {A} (r : A * Node * World * list Call) : Node :=
  snd (fst (fst r)).
Definition world_of {A} (r : A * Node * World * list Call) : World :=
  snd (fst r).
Definition calls_of {A} (r : A * Node * World * list Call) : list Call :=
  snd r.

Definition count (p : Call -> bool) (tr : list Call) : nat :=
  length (filter p tr).

(** The calls made after the first one that satisfies [p]. *)
Fixpoint calls_after (p : Call -> bool) (tr : list Call) : list Call :=
  match tr with
  | [] => []
  | c :: tr' => if p c then tr' else calls_after p tr'
  end.

(** Calls on [planner_]. *)
Definition is_planner_call (c : Call) : bool :=
  match c with
  | PlannerSetGlobalMap _ | PlannerSetLocalMap _ | PlannerSetGoal _ _ _ _
  | PlannerUpdate _ _ _ _ | PlannerIsGoalReached _ _ | PlannerHasValidPath _
  | PlannerHasNewLocalPath _ | PlannerGetLocalPath _ | PlannerGetGlobalPath _
  | PlannerGetGlobalWaypoints _ => true
  | _ => false
  end.

(** Calls on [motion_ac_]. *)
Definition is_executor_call (c : Call) : bool :=
  match c with
  | MotionWaitForServer _ _ | MotionSendGoal _ | MotionCancelAllGoals => true
  | _ => false
  end.

Definition is_sendGoal (c : Call) : bool :=
  match c with MotionSendGoal _ => true | _ => false end.
Definition is_cancelAll (c : Call) : bool :=
  match c with MotionCancelAllGoals => true | _ => false end.
Definition is_planner_update (c : Call) : bool :=
  match c with PlannerUpdate _ _ _ _ => true | _ => false end.

(** A path leaving the node for execution: a goal sent to the action
    server, or a message on the path topic that the goal names. *)
Definition is_path_push (c : Call) : bool :=
  match c with
  | MotionSendGoal _ | PathPublish _ => true
  | _ => false
  end.

(** Outcomes of single calls. *)
Definition pose_lookup_ok (c : Call) : bool :=
  match c with TfLookupTransform _ _ _ (inr _) => true | _ => false end.
Definition pose_lookup_failed (c : Call) : bool :=
  match c with TfLookupTransform _ _ _ (inl _) => true | _ => false end.
Definition goal_reached_yes (c : Call) : bool :=
  match c with PlannerIsGoalReached _ true => true | _ => false end.
Definition planner_update_raised (c : Call) : bool :=
  match c with PlannerUpdate _ _ _ (Some _) => true | _ => false end.
Definition setGoal_ok (c : Call) : bool :=
  match c with PlannerSetGoal _ _ _ None => true | _ => false end.
Definition valid_path_yes (c : Call) : bool :=
  match c with PlannerHasValidPath true => true | _ => false end.
Definition new_local_path_no (c : Call) : bool :=
  match c with PlannerHasNewLocalPath false => true | _ => false end.
(** The action server answered within the 1.0 s the node waits. *)
Definition server_ready_in_1s (c : Call) : bool :=
  match c with
  | MotionWaitForServer timeout true => PrimFloat.eqb timeout 1.0%float
  | _ => false
  end.
Definition is_error_log (c : Call) : bool :=
  match c with Log ERROR _ _ => true | _ => false end.

(** The failure of an active tick: the pose lookup threw, or
    [planner_.update] threw. *)
Definition tick_failure (c : Call) : bool :=
  pose_lookup_failed c || planner_update_raised c.

(** What the exception of a failed call said. *)
Definition failure_what (c : Call) : option string :=
  match c with
  | TfLookupTransform _ _ _ (inl what) => Some what
  | PlannerUpdate _ _ _ (Some what) => Some what
  | _ => None
  end.

(** The replan hints passed to [planner_.update], in order. *)
Fixpoint update_hints (tr : list Call) : list bool :=
  match tr with
  | [] => []
  | PlannerUpdate _ _ force _ :: tr' => force :: update_hints tr'
  | _ :: tr' => update_hints tr'
  end.

(** The action server as this client drives it: the goal it was last
    sent and has not been told to cancel.  [sendGoal] installs a goal,
    [cancelAllGoals] removes whatever is there. *)
Fixpoint executor_after (held : option MotionGoal.t) (tr : list Call)
    : option MotionGoal.t :=
  match tr with
  | [] => held
  | MotionSendGoal g :: tr' => executor_after (Some g) tr'
  | MotionCancelAllGoals :: tr' => executor_after None tr'
  | _ :: tr' => executor_after held tr'
  end.

Definition holds_command (held : option MotionGoal.t) : bool :=
  match held with
  | Some g => match MotionGoal.mode g with MotionGoal.MOTION_FOLLOW_PATH => true end
  | None => false
  end.

(** The [cancelAllGoals] calls that find a goal to cancel. *)
Fixpoint effective_cancels (held : option MotionGoal.t) (tr : list Call) : nat :=
  match tr with
  | [] => O
  | MotionSendGoal g :: tr' => effective_cancels (Some g) tr'
  | MotionCancelAllGoals :: tr' =>
      ((if holds_command held then 1 else 0) + effective_cancels None tr')%nat
  | _ :: tr' => effective_cancels held tr'
  end.

(** The frame a published message is stamped with. *)
Definition published_frame (c : Call) : option string :=
  match c with
  | PathPublish msg => Some (Header.frame_id (Path.header msg))
  | VisuPublish msg => Some (Header.frame_id (Marker.header msg))
  | _ => None
  end.

Definition stamped_with (frame : string) (c : Call) : Prop :=
  match published_frame c with
  | Some f => f = frame
  | None => True
  end.

(** The frame identifier a node can have stored: empty until the first
    map, ["/map"] from then on. *)
Definition stored_frame_ok (n : Node) : Prop :=
  gmap_frame_id_ n = if got_map_ n then "/map" else "".

Definition stamped_empty_or_map (c : Call) : Prop :=
  stamped_with "" c \/ stamped_with "/map" c.

(** More outcomes and kinds of calls, for [updateGoal]. *)
Definition goal_transform_failed (c : Call) : bool :=
  match c with TfTransformPose _ _ (inl _) => true | _ => false end.
Definition is_pose_lookup (c : Call) : bool :=
  match c with TfLookupTransform _ _ _ _ => true | _ => false end.
Definition is_setGoal (c : Call) : bool :=
  match c with PlannerSetGoal _ _ _ _ => true | _ => false end.
Definition is_waitForServer (c : Call) : bool :=
  match c with MotionWaitForServer _ _ => true | _ => false end.

(** What a call looks like when the node has not yet stored a map: the
    frame it names is the empty string, a goal is only handed to tf for
    conversion if its own frame is not empty, and the global map the
    planner reads is the default-constructed grid. *)
Definition before_first_map (c : Call) : Prop :=
  match c with
  | TfTransformPose target stamped_in _ =>
      target = "" /\ Header.frame_id (PoseStamped.header stamped_in) <> ""
  | TfLookupTransform target _ _ _ => target = ""
  | PlannerSetGlobalMap st | PlannerSetLocalMap st
  | PlannerSetGoal st _ _ _ | PlannerUpdate st _ _ _ =>
      MapStore.gmap st = OccupancyGrid.default
  | PathPublish _ | VisuPublish _ => published_frame c = Some ""
  | _ => True
  end.

(** The argument that [update] has in a comment where it passes
    [false]: [replan_timer_.msElapsed() > 500]. *)
Definition forceReplanIntervalMs : Z := 500.
Definition replan_hint_by_interval (now_ms : Z) (n : Node) : bool :=
  forceReplanIntervalMs <? Stopwatch.msElapsed now_ms (replan_timer_ n).

(** A tick passes the threshold's verdict as replan hint: every hint
    handed to [planner_.update] is true exactly when the replan timer
    shows more than the interval at the start of the tick. *)
Definition hint_follows_interval (n : Node) (w : World) : Prop :=
  forall hint : bool,
    In hint (update_hints (calls_of (update n w))) ->
    hint = replan_hint_by_interval (fst (stopwatch_clock w)) n.

(** [k] consecutive turns of [update], keeping each turn's calls apart. *)
Fixpoint ticks (k : nat) (n : Node) (w : World) : list (list Call) * Node * World :=
  match k with
  | O => ([], n, w)
  | S k' =>
      let r := update n w in
      let '(trs, n', w') := ticks k' (node_of r) (world_of r) in
      (calls_of r :: trs, n', w')
  end.

End Traces.

(** ** Reading more off a trace *)
Section Observations.
Context {C : Collab}.

(** The values [f] picks out of a trace, in order. *)
Definition pick {A : Type} (f : Call -> option A) (tr : list Call) : list A :=
  flat_map (fun c => match f c with Some a => [a] | None => [] end) tr.

(** Messages published on the path topic. *)
Definition published_paths : list Call -> list Path.t :=
  pick (fun c => match c with PathPublish msg => Some msg | _ => None end).
(** Markers published. *)
Definition published_markers : list Call -> list Marker.t :=
  pick (fun c => match c with VisuPublish msg => Some msg | _ => None end).
(** Goals sent to the action server. *)
Definition sent_goals : list Call -> list MotionGoal.t :=
  pick (fun c => match c with MotionSendGoal g => Some g | _ => None end).
(** What [planner_.getLocalPath()] returned. *)
Definition local_paths_read : list Call -> list (list Pose2d.t) :=
  pick (fun c => match c with PlannerGetLocalPath p => Some p | _ => None end).
(** What [planner_.getGlobalPath()] and [getGlobalWaypoints()] returned. *)
Definition global_paths_read : list Call -> list (list Point2d.t) :=
  pick (fun c => match c with PlannerGetGlobalPath p => Some p | _ => None end).
Definition waypoints_read : list Call -> list (list Pose2d.t) :=
  pick (fun c => match c with PlannerGetGlobalWaypoints p => Some p | _ => None end).
(** The costmap copies fetched from [lmap_ros_]. *)
Definition costmap_copies : list Call -> list Costmap2D :=
  pick (fun c => match c with LmapGetCostmapCopy cm => Some cm | _ => None end).
(** The readings the stopwatch took. *)
Definition stopwatch_readings : list Call -> list Z :=
  pick (fun c => match c with StopwatchClock ms => Some ms | _ => None end).
(** The transforms tf found, and the goals it converted. *)
Definition transforms_found : list Call -> list TransformStamped.t :=
  pick (fun c => match c with
                 | TfLookupTransform _ _ _ (inr msg) => Some msg
                 | _ => None
                 end).
Definition goals_converted : list Call -> list PoseStamped.t :=
  pick (fun c => match c with
                 | TfTransformPose _ _ (inr goal_map) => Some goal_map
                 | _ => None
                 end).
(** The start and end poses handed to [planner_.setGoal]. *)
Definition setGoal_args : list Call -> list (Pose2d.t * Pose2d.t) :=
  pick (fun c => match c with
                 | PlannerSetGoal _ path_start path_end _ =>
                     Some (path_start, path_end)
                 | _ => None
                 end).
(** The topics advertised and subscribed to. *)
Definition advertised : list Call -> list (string * Z) :=
  pick (fun c => match c with Advertise t q => Some (t, q) | _ => None end).
Definition subscribed : list Call -> list (string * Z) :=
  pick (fun c => match c with Subscribe t q => Some (t, q) | _ => None end).

(** The maps a planner call can read. *)
Definition store_of (c : Call) : option store :=
  match c with
  | PlannerSetGlobalMap st | PlannerSetLocalMap st
  | PlannerSetGoal st _ _ _ | PlannerUpdate st _ _ _ => Some st
  | _ => None
  end.

Definition valid_path_no (c : Call) : bool :=
  match c with PlannerHasValidPath false => true | _ => false end.
Definition new_local_path_yes (c : Call) : bool :=
  match c with PlannerHasNewLocalPath true => true | _ => false end.
Definition is_setGlobalMap (c : Call) : bool :=
  match c with PlannerSetGlobalMap _ => true | _ => false end.
Definition is_transformPose (c : Call) : bool :=
  match c with TfTransformPose _ _ _ => true | _ => false end.
Definition is_visu_publish (c : Call) : bool :=
  match c with VisuPublish _ => true | _ => false end.
Definition is_warn_log (c : Call) : bool :=
  match c with Log WARN _ _ => true | _ => false end.
Definition is_goal_updated_log (c : Call) : bool :=
  match c with
  | Log INFO fmt [] => (fmt =? "Goal updated.")%string
  | _ => false
  end.

(** Calls that belong to goal adoption only. *)
Definition adoption_only (c : Call) : bool :=
  match c with
  | MotionSendGoal _ | MotionWaitForServer _ _ | PlannerSetGoal _ _ _ _
  | PlannerSetGlobalMap _ | PlannerGetGlobalPath _ | TfTransformPose _ _ _ =>
      true
  | _ => false
  end.

(** The pose [getRobotPose] writes for a transform found. *)
Definition robot_pose_of (msg : TransformStamped.t) : Pose2d.t :=
  Pose2d.mk (Point.x (TransformStamped.translation msg))
            (Point.y (TransformStamped.translation msg))
            (tf_getYaw (TransformStamped.rotation msg)).

(** The [pathEnd] that [updateGoal] builds from the goal in map
    coordinates. *)
Definition pathEnd_of (goal_map : PoseStamped.t) : Pose2d.t :=
  Pose2d.mk (Point.x (Pose.position (PoseStamped.pose goal_map)))
            (Point.y (Pose.position (PoseStamped.pose goal_map)))
            (tf_getYaw (Pose.orientation (PoseStamped.pose goal_map))).

(** The goal [activate] builds for a local path. *)
Definition motionGoal_for (topic : string) (lpath : list Pose2d.t) : MotionGoal.t :=
  MotionGoal.mk MotionGoal.MOTION_FOLLOW_PATH topic
                (plannerPathToRos lpath []) 0.7%float 0.20%float.

(** A planner call reads the node's global map copy and the thresholds
    set on the local wrapper, and, unless it is [setGlobalMap], the local
    costmap copy [cm]. *)
Definition reads_maps (n : Node) (cm : Costmap2D) (c : Call) : Prop :=
  match store_of c with
  | Some st =>
      MapStore.gmap st = gmap_cpy_ n /\
      MapStore.lmap_lower_threshold st = lmap_lower_threshold_ n /\
      MapStore.lmap_upper_threshold st = lmap_upper_threshold_ n /\
      (is_setGlobalMap c = false -> MapStore.lmap st = cm)
  | None => True
  end.

(** A goal sent names [topic] and carries the fixed execution
    parameters. *)
Definition goal_on_topic (topic : string) (c : Call) : Prop :=
  match c with
  | MotionSendGoal g =>
      MotionGoal.path_topic g = topic /\
      MotionGoal.mode g = MotionGoal.MOTION_FOLLOW_PATH /\
      MotionGoal.v g = 0.7%float /\
      MotionGoal.pos_tolerance g = 0.20%float
  | _ => True
  end.

(** A planner call made with the given thresholds on the local map. *)
Definition thresholds_as (lower upper : Z) (c : Call) : Prop :=
  match store_of c with
  | Some st =>
      MapStore.lmap_lower_threshold st = lower /\
      MapStore.lmap_upper_threshold st = upper
  | None => True
  end.

(** A planner call that reads [map] as the global map. *)
Definition reads_global_map (map : OccupancyGrid.t) (c : Call) : Prop :=
  match store_of c with
  | Some st => MapStore.gmap st = map
  | None => True
  end.

(** What a handler that started from node [n] did with the maps: the
    global map copy is as before, and either no costmap copy was fetched
    and no planner call reading a map was made, or exactly one copy was
    fetched, it is now in [lmap_cpy_], and every planner call read the
    maps of [n] with that copy as local map. *)
Definition plans_on_fresh_local_map (n : Node)
    (r : unit * Node * World * list Call) : Prop :=
  gmap_cpy_ (node_of r) = gmap_cpy_ n /\
  ((costmap_copies (calls_of r) = [] /\
    pick store_of (calls_of r) = [] /\
    lmap_cpy_ (node_of r) = lmap_cpy_ n)
   \/
   (exists cm,
      costmap_copies (calls_of r) = [cm] /\
      lmap_cpy_ (node_of r) = cm /\
      Forall (reads_maps n cm) (calls_of r))).

Definition is_goal_event (e : Event) : bool :=
  match e with GoalMsg _ => true | _ => false end.

(** The number of goal messages among the events. *)
Definition goal_events (es : list Event) : nat :=
  length (filter is_goal_event es).

(** Every other point of a [LINE_LIST], the start of each segment. *)
Fixpoint segment_starts (points : list Point.t) : list Point.t :=
  match points with
  | p :: _ :: rest => p :: segment_starts rest
  | _ => []
  end.

(** The marker [visualizeWaypoints] builds. *)
Definition waypoints_marker (frame : string) (t : Time.t) (ns : string)
    (id : Z) (wp : list Pose2d.t) : Marker.t :=
  Marker.mk (Header.mk 0 t frame) ns id Marker.LINE_LIST Marker.ADD
            scale_0_1f 0%float (ColorRGBA.mk 0%float 1%float 0%float 1%float)
            (flat_map waypoint_points wp).

End Observations.

(** ** A scripted set of collaborators

    Stand-ins of the kind a unit test of the node would use: every query
    returns the answer written in the script, the clock reads a fixed
    value, and the action server remembers the goal it holds. *)
Module Scripted.

Record world := mk {
  params : string -> string -> string;
  now : Time.t;
  clock_ms : Z;
  lookup : string + TransformStamped.t;
  transformed : string + PoseStamped.t;
  costmap : list Z;
  setGoal_throws : option string;
  update_throws : option string;
  goal_reached : bool;
  valid_path : bool;
  new_local_path : bool;
  local_path : list Pose2d.t;
  global_path : list Point2d.t;
  waypoints : list Pose2d.t;
  server_ready : bool;
  server_goal : option MotionGoal.t
}.

Definition set_server_goal (g : option MotionGoal.t) (w : world) : world :=
  mk (params w) (now w) (clock_ms w) (lookup w) (transformed w) (costmap w)
     (setGoal_throws w) (update_throws w) (goal_reached w) (valid_path w)
     (new_local_path w) (local_path w) (global_path w) (waypoints w)
     (server_ready w) g.

Definition collab : Collab := {|
  World := world;
  Costmap2D := list Z;
  Costmap2D_default := [];
  tf_getYaw := fun q => Quaternion.z q;
  tf_createQuaternionMsgFromYaw := fun yaw => Quaternion.mk 0%float 0%float yaw 1%float;
  libm_cos := fun _ => 1%float;
  libm_sin := fun _ => 0%float;
  n_param := fun name default_value w => (params w name default_value, w);
  ros_Time_now := fun w => (now w, w);
  stopwatch_clock := fun w => (clock_ms w, w);
  tf_lookupTransform := fun _ _ _ w => (lookup w, w);
  tf_transformPose := fun _ _ w => (transformed w, w);
  lmap_ros_clearRobotFootprint := fun w => w;
  lmap_ros_getCostmapCopy := fun w => (costmap w, w);
  planner_setGlobalMap := fun _ w => w;
  planner_setLocalMap := fun _ w => w;
  planner_setGoal := fun _ _ _ w => (setGoal_throws w, w);
  planner_update := fun _ _ _ w => (update_throws w, w);
  planner_isGoalReached := fun _ w => (goal_reached w, w);
  planner_hasValidPath := fun w => (valid_path w, w);
  planner_hasNewLocalPath := fun w => (new_local_path w, w);
  planner_getLocalPath := fun w => (local_path w, w);
  planner_getGlobalPath := fun w => (global_path w, w);
  planner_getGlobalWaypoints := fun w => (waypoints w, w);
  motion_ac_waitForServer := fun _ w => (server_ready w, w);
  motion_ac_sendGoal := fun g w => set_server_goal (Some g) w;
  motion_ac_cancelAllGoals := fun w => set_server_goal None w;
  n_subscribe := fun _ _ w => w;
  n_advertise := fun _ _ w => w;
  path_pub_publish := fun _ w => w;
  visu_pub_publish := fun _ w => w
|}.

Definition robot_at (x y : float) : TransformStamped.t :=
  TransformStamped.mk (Header.mk 0 Time.zero "/map") "/base_link"
    (Point.mk x y 0%float) (Quaternion.mk 0%float 0%float 0%float 1%float).

(** Everything works: the robot is located, planning succeeds with a
    two-pose local path, the action server is up. *)
Definition fair_weather : world :=
  mk (fun _ default_value => default_value)
     (Time.mk 100 0) 1000
     (inr (robot_at 1 2))
     (inr (PoseStamped.mk (Header.mk 0 Time.zero "/map")
             (Pose.mk (Point.mk 5 6 0) Quaternion.default)))
     [0; 0; 254; 0]
     None None false true true
     [Pose2d.mk 1 2 0; Pose2d.mk 3 4 0]
     [Point2d.mk 1 2; Point2d.mk 5 6]
     [Pose2d.mk 3 4 0]
     true None.

Definition with_lookup (r : string + TransformStamped.t) (w : world) : world :=
  mk (params w) (now w) (clock_ms w) r (transformed w) (costmap w)
     (setGoal_throws w) (update_throws w) (goal_reached w) (valid_path w)
     (new_local_path w) (local_path w) (global_path w) (waypoints w)
     (server_ready w) (server_goal w).
Definition with_update_throws (r : option string) (w : world) : world :=
  mk (params w) (now w) (clock_ms w) (lookup w) (transformed w) (costmap w)
     (setGoal_throws w) r (goal_reached w) (valid_path w)
     (new_local_path w) (local_path w) (global_path w) (waypoints w)
     (server_ready w) (server_goal w).
Definition with_goal_reached (r : bool) (w : world) : world :=
  mk (params w) (now w) (clock_ms w) (lookup w) (transformed w) (costmap w)
     (setGoal_throws w) (update_throws w) r (valid_path w)
     (new_local_path w) (local_path w) (global_path w) (waypoints w)
     (server_ready w) (server_goal w).
Definition with_new_local_path (r : bool) (w : world) : world :=
  mk (params w) (now w) (clock_ms w) (lookup w) (transformed w) (costmap w)
     (setGoal_throws w) (update_throws w) (goal_reached w) (valid_path w)
     r (local_path w) (global_path w) (waypoints w)
     (server_ready w) (server_goal w).

Definition with_clock_ms (ms : Z) (w : world) : world :=
  mk (params w) (now w) ms (lookup w) (transformed w) (costmap w)
     (setGoal_throws w) (update_throws w) (goal_reached w) (valid_path w)
     (new_local_path w) (local_path w) (global_path w) (waypoints w)
     (server_ready w) (server_goal w).

Definition with_valid_path (r : bool) (w : world) : world :=
  mk (params w) (now w) (clock_ms w) (lookup w) (transformed w) (costmap w)
     (setGoal_throws w) (update_throws w) (goal_reached w) r
     (new_local_path w) (local_path w) (global_path w) (waypoints w)
     (server_ready w) (server_goal w).
Definition with_server_ready (r : bool) (w : world) : world :=
  mk (params w) (now w) (clock_ms w) (lookup w) (transformed w) (costmap w)
     (setGoal_throws w) (update_throws w) (goal_reached w) (valid_path w)
     (new_local_path w) (local_path w) (global_path w) (waypoints w)
     r (server_goal w).
Definition with_transformed (r : string + PoseStamped.t) (w : world) : world :=
  mk (params w) (now w) (clock_ms w) (lookup w) r (costmap w)
     (setGoal_throws w) (update_throws w) (goal_reached w) (valid_path w)
     (new_local_path w) (local_path w) (global_path w) (waypoints w)
     (server_ready w) (server_goal w).

(** A goal in a frame that is not the map's. *)
Definition goal_in_odom : PoseStamped.t :=
  PoseStamped.mk (Header.mk 0 Time.zero "/odom")
    (Pose.mk (Point.mk 7 8 0) Quaternion.default).

(** A goal in the frame of a node that has not yet seen a map. *)
Definition goal_unframed : PoseStamped.t :=
  PoseStamped.mk (Header.mk 0 Time.zero "")
    (Pose.mk (Point.mk 5 6 0) Quaternion.default).

(** A goal in the map frame. *)
Definition goal_in_map : PoseStamped.t :=
  PoseStamped.mk (Header.mk 0 Time.zero "/map")
    (Pose.mk (Point.mk 5 6 0) Quaternion.default).

(** The node as constructed in fair weather. *)
Definition fresh_node : Node (C := collab) :=
  fst (fst (CombinedPlannerNode (C := collab) fair_weather)).

(** A node with a mission under way: constructed, given a map, given a
    goal. *)
Definition busy_node : Node (C := collab) :=
  fst (fst (run_main (C := collab)
              [MapMsg OccupancyGrid.default; GoalMsg goal_in_map] fair_weather)).
Definition busy_world : world :=
  snd (fst (run_main (C := collab)
              [MapMsg OccupancyGrid.default; GoalMsg goal_in_map] fair_weather)).

End Scripted.

(** * Properties *)

Example busy_node_is_active :
  active_ Scripted.busy_node = true /\
  Scripted.server_goal Scripted.busy_world <> None.
Proof. vm_compute. split; [reflexivity | discriminate]. Qed.

(** Unfold the methods down to the calls they make. *)
Ltac unfold_methods :=
  unfold update, updateGoal, updateMap, activate, deactivate, getRobotPose,
    publishEmptyLocalPath, publishLocalPath, visualizePath, visualizeWaypoints,
    replan_timer_restart, getCostmapCopy, map_store,
    bind, ret, ask, tell, log, get, modify, store_active,
    node_of, world_of, calls_of.

(** Split on the outcome of the next call or test in program order: the
    innermost scrutinee that contains no other.  Facts about the node
    that a proof needs are left in the goal as premises, so that the
    split rewrites them too. *)
Ltac scrutinee_ready x :=
  lazymatch x with
  | match _ with _ => _ end => fail
  | (match _ with _ => _ end) _ => fail
  | (match _ with _ => _ end) _ _ => fail
  | context [match _ with _ => _ end] => fail
  | _ => idtac
  end.

Ltac split_on x :=
  lazymatch type of x with
  | prod _ _ => case x; intros ? ?
  | bool => case x
  | option _ => case x; [intros ? |]
  | sum _ _ => case x; intros ?
  | unit => case x
  | _ => destruct x
  end.

Ltac step :=
  match goal with
  | |- context [match ?x with _ => _ end] =>
      first
        [ is_var x; split_on x
        | lazymatch x with
          | negb (String.eqb ?a ?b) =>
              scrutinee_ready a; scrutinee_ready b;
              destruct (String.eqb a b) eqn:?
          | negb ?b => scrutinee_ready b; split_on b
          | _ => scrutinee_ready x; split_on x
          end ]
  end;
  cbn [fst snd app negb
       map_topic_ goal_topic_ path_topic_ lmap_cpy_ lmap_lower_threshold_
       lmap_upper_threshold_ gmap_cpy_ gmap_frame_id_ got_map_ replan_timer_
       active_
       set_map_topic_ set_goal_topic_ set_path_topic_ set_lmap_cpy_
       set_lmap_lower_threshold_ set_lmap_upper_threshold_ set_gmap_cpy_
       set_gmap_frame_id_ set_got_map_ set_replan_timer_ set_active_].

Ltac run_method := unfold_methods; repeat step.

(** Prove a property of every call of an explicit trace. *)
Ltac each_call tac :=
  repeat (apply Forall_cons; [tac |]); apply Forall_nil.

Section Tick.
Context {C : Collab}.

Lemma update_idle (n : Node) (w : World) :
  active_ n = false -> update n w = (tt, n, w, []).
Proof.
  intros H. unfold update, bind, get. cbn. rewrite H. reflexivity.
Qed.

(** C3.  While the node is idle a tick returns at once: [update] makes
    no call at all, so none to the planner or the action client, and
    leaves the node and the world as they were; the same holds for any
    number of ticks in a row. *)
Theorem idle_ticks_do_nothing (k : nat) (n : Node) (w : World) :
  active_ n = false ->
  update n w = (tt, n, w, []) /\
  run (repeat Tick k) n w = (tt, n, w, []).
Proof.
  intros H. split; [now apply update_idle|].
  induction k as [|k IH]; [reflexivity|].
  cbn [repeat run handle]. unfold bind.
  rewrite (update_idle n w H), IH. reflexivity.
Qed.

(** C4.  On an active tick in which [isGoalReached] answers true (which
    it is only asked once the pose lookup has succeeded),
    [planner_.update] is not called: that question is the only call on
    the planner, the node deactivates (one [cancelAllGoals]) and ends the
    tick idle. *)
Theorem goal_reached_skips_replanning (n : Node) (w : World) :
  active_ n = true ->
  existsb pose_lookup_ok (calls_of (update n w)) = true ->
  existsb goal_reached_yes (calls_of (update n w)) = true ->
  existsb is_planner_update (calls_of (update n w)) = false /\
  count is_planner_call (calls_of (update n w)) = 1%nat /\
  count is_cancelAll (calls_of (update n w)) = 1%nat /\
  active_ (node_of (update n w)) = false.
Proof.
  intros Ha. unfold_methods. rewrite Ha. cbn [negb].
  repeat step; cbn; intros; try discriminate; auto.
Qed.

(** C5.  On an active tick in which the pose lookup throws or
    [planner_.update] throws, the exception is caught and its message is
    the next thing logged, as an error; the node ends the tick idle,
    [cancelAllGoals] is called exactly once, and no call on the planner
    follows the failed call. *)
Theorem tick_failure_aborts_mission (n : Node) (w : World) :
  active_ n = true ->
  existsb tick_failure (calls_of (update n w)) = true ->
  active_ (node_of (update n w)) = false /\
  count is_cancelAll (calls_of (update n w)) = 1%nat /\
  existsb is_planner_call (calls_after tick_failure (calls_of (update n w))) = false /\
  exists c what fmt,
    find tick_failure (calls_of (update n w)) = Some c /\
    failure_what c = Some what /\
    hd_error (calls_after tick_failure (calls_of (update n w)))
      = Some (Log ERROR fmt [what]).
Proof.
  intros Ha. unfold_methods. rewrite Ha. cbn [negb].
  repeat step; cbn; intros; try discriminate;
    (repeat split; auto; do 3 eexists; repeat split; reflexivity).
Qed.

Lemma update_no_new_path (n : Node) (w : World) :
  active_ n = true ->
  existsb valid_path_yes (calls_of (update n w)) &&
  existsb new_local_path_no (calls_of (update n w)) = true ->
  existsb is_path_push (calls_of (update n w)) = false /\
  active_ (node_of (update n w)) = true.
Proof.
  intros Ha. unfold_methods. rewrite Ha. cbn [negb].
  repeat step; cbn; intros; try discriminate; auto.
Qed.

Lemma existsb_concat_cons (p : Call -> bool) (tr : list Call) (trs : list (list Call)) :
  existsb p (concat (tr :: trs)) = existsb p tr || existsb p (concat trs).
Proof. cbn [concat]. apply existsb_app. Qed.

(** C6.  On an active tick in which the planner reports a valid path and
    no new local path, nothing is sent to the action server or published
    on the path topic and the node stays active; so any number of such
    ticks in a row push no path at all. *)
Theorem no_new_local_path_no_push (k : nat) (n : Node) (w : World) :
  active_ n = true ->
  forallb (fun tr => existsb valid_path_yes tr && existsb new_local_path_no tr)
          (fst (fst (ticks k n w))) = true ->
  existsb is_path_push (concat (fst (fst (ticks k n w)))) = false /\
  active_ (snd (fst (ticks k n w))) = true.
Proof.
  revert n w. induction k as [|k IH]; intros n w Ha Hk.
  - cbn. auto.
  - cbn [ticks] in *.
    destruct (ticks k (node_of (update n w)) (world_of (update n w)))
      as [[trs n'] w'] eqn:E.
    cbn [fst snd forallb] in *.
    apply andb_true_iff in Hk. destruct Hk as [H1 Hrest].
    destruct (update_no_new_path n w Ha H1) as [Hpush Hact].
    specialize (IH _ (world_of (update n w)) Hact). rewrite E in IH. cbn [fst snd] in IH.
    destruct (IH Hrest) as [IH1 IH2].
    rewrite existsb_concat_cons, Hpush, IH1. auto.
Qed.

(** [ticks] is [run] on a sequence of [Tick]s. *)
Lemma ticks_run (k : nat) (n : Node) (w : World) :
  run (repeat Tick k) n w =
  (tt, snd (fst (ticks k n w)), snd (ticks k n w), concat (fst (fst (ticks k n w)))).
Proof.
  revert n w. induction k as [|k IH]; intros n w; [reflexivity|].
  cbn [repeat run handle ticks]. unfold bind.
  destruct (update n w) as [[[[] n1] w1] t1]. unfold node_of, world_of, calls_of.
  cbn [fst snd]. rewrite IH.
  destruct (ticks k n1 w1) as [[trs n'] w']. reflexivity.
Qed.

End Tick.

Lemma idle_ticks_do_nothing_witness :
  active_ Scripted.fresh_node = false /\
  update (C := Scripted.collab) Scripted.fresh_node Scripted.fair_weather
    = (tt, Scripted.fresh_node, Scripted.fair_weather, []) /\
  run (C := Scripted.collab) (repeat Tick 5) Scripted.fresh_node Scripted.fair_weather
    = (tt, Scripted.fresh_node, Scripted.fair_weather, []).
Proof.
  split; [reflexivity|].
  apply (idle_ticks_do_nothing (C := Scripted.collab)). reflexivity.
Defined.

Lemma goal_reached_skips_replanning_witness :
  let n := Scripted.busy_node in
  let w := Scripted.with_goal_reached true Scripted.busy_world in
  active_ n = true /\
  existsb pose_lookup_ok (calls_of (update n w)) = true /\
  existsb goal_reached_yes (calls_of (update n w)) = true /\
  existsb is_planner_update (calls_of (update n w)) = false /\
  count is_planner_call (calls_of (update n w)) = 1%nat /\
  count is_cancelAll (calls_of (update n w)) = 1%nat /\
  active_ (node_of (update n w)) = false.
Proof.
  intros n w.
  split; [reflexivity|]. split; [reflexivity|]. split; [reflexivity|].
  apply (goal_reached_skips_replanning (C := Scripted.collab) n w); reflexivity.
Defined.

Lemma tick_failure_aborts_mission_witness :
  let n := Scripted.busy_node in
  let w1 := Scripted.with_lookup (inl "no transform") Scripted.busy_world in
  let w2 := Scripted.with_update_throws (Some "no path") Scripted.busy_world in
  (active_ n = true /\
   existsb tick_failure (calls_of (update n w1)) = true /\
   existsb tick_failure (calls_of (update n w2)) = true) /\
  (active_ (node_of (update n w1)) = false /\
   count is_cancelAll (calls_of (update n w1)) = 1%nat) /\
  (active_ (node_of (update n w2)) = false /\
   count is_cancelAll (calls_of (update n w2)) = 1%nat).
Proof.
  intros n w1 w2.
  split; [repeat split; reflexivity|].
  split.
  - pose proof (tick_failure_aborts_mission (C := Scripted.collab) n w1
                  eq_refl eq_refl) as H.
    split; [exact (proj1 H) | exact (proj1 (proj2 H))].
  - pose proof (tick_failure_aborts_mission (C := Scripted.collab) n w2
                  eq_refl eq_refl) as H.
    split; [exact (proj1 H) | exact (proj1 (proj2 H))].
Defined.

Lemma no_new_local_path_no_push_witness :
  let n := Scripted.busy_node in
  let w := Scripted.with_new_local_path false Scripted.busy_world in
  active_ n = true /\
  forallb (fun tr => existsb valid_path_yes tr && existsb new_local_path_no tr)
          (fst (fst (ticks 5 n w))) = true /\
  existsb is_path_push (concat (fst (fst (ticks 5 n w)))) = false /\
  active_ (snd (fst (ticks 5 n w))) = true.
Proof.
  intros n w.
  split; [reflexivity|]. split; [reflexivity|].
  apply (no_new_local_path_no_push (C := Scripted.collab) 5 n w); reflexivity.
Defined.

(** ** Activation and deactivation *)
Section Lifecycle.
Context {C : Collab}.

(** What one call of [deactivate] does, in order. *)
Lemma deactivate_run (n : Node) (w : World) :
  exists t w',
    deactivate n w =
    (tt, set_active_ false n, w',
     [ Log INFO "Deactivating path planner." [];
       MotionCancelAllGoals;
       StoreActive false;
       TimeNow t;
       PathPublish (Path.mk (Header.mk 0 t (gmap_frame_id_ n)) []) ]).
Proof.
  run_method. do 2 eexists. reflexivity.
Qed.


(** C7, as the code has it.  Two calls of [deactivate] in a row call
    [cancelAllGoals] twice.  Of the two, the first finds a goal to cancel
    exactly when one was outstanding before it, and the second never
    does: one cancel with an effect if a goal was outstanding, none
    otherwise.  The second call leaves the node as the first left it,
    idle.  Each call cancels first, then clears [active_], then publishes
    a path message without poses, and [updateGoal] starts with such a
    call whatever the state of the node. *)
Theorem deactivate_idempotent (held : option MotionGoal.t) (n : Node) (w : World) :
  let r1 := deactivate n w in
  let r2 := deactivate (node_of r1) (world_of r1) in
  count is_cancelAll (calls_of r1 ++ calls_of r2) = 2%nat /\
  effective_cancels held (calls_of r1 ++ calls_of r2)
  = (if holds_command held then 1 else 0)%nat /\
  effective_cancels (executor_after held (calls_of r1)) (calls_of r2) = 0%nat /\
  active_ (node_of r1) = false /\
  node_of r2 = node_of r1 /\
  (forall (n0 : Node) (w0 : World), exists t w',
      deactivate n0 w0 =
      (tt, set_active_ false n0, w',
       [ Log INFO "Deactivating path planner." [];
         MotionCancelAllGoals;
         StoreActive false;
         TimeNow t;
         PathPublish (Path.mk (Header.mk 0 t (gmap_frame_id_ n0)) []) ])) /\
  (forall (goal : PoseStamped.t) (n0 : Node) (w0 : World),
      firstn 6 (calls_of (updateGoal goal n0 w0)) =
      Log INFO "Got a new goal" [] :: calls_of (deactivate n0 w0)).
Proof.
  intros r1 r2.
  destruct (deactivate_run n w) as (t1 & w1 & E1).
  assert (E2 : exists t2 w2, r2 =
    (tt, set_active_ false (set_active_ false n), w2,
     [ Log INFO "Deactivating path planner." [];
       MotionCancelAllGoals;
       StoreActive false;
       TimeNow t2;
       PathPublish (Path.mk (Header.mk 0 t2 (gmap_frame_id_ n)) []) ])).
  { subst r2 r1. rewrite E1. unfold node_of, world_of. cbn [fst snd].
    destruct (deactivate_run (set_active_ false n) w1) as (t2 & w2 & E2).
    exists t2, w2. exact E2. }
  destruct E2 as (t2 & w2 & E2).
  subst r1. rewrite E2, E1. unfold node_of, world_of, calls_of. cbn [fst snd].
  repeat split.
  - cbn. destruct (holds_command held); reflexivity.
  - apply deactivate_run.
  - intros goal n0 w0. run_method; reflexivity.
Qed.

End Lifecycle.

(** C7, as stated, fails.  The freshly constructed node is idle and the
    action server holds no goal.  Two calls of [deactivate] in a row call
    [cancelAllGoals] twice, and neither finds a goal to cancel: the
    number of cancels with an effect is 0, not 1. *)
Lemma deactivate_twice_from_idle_cancels_nothing :
  let held := Scripted.server_goal Scripted.fair_weather in
  let r1 := deactivate (C := Scripted.collab) Scripted.fresh_node Scripted.fair_weather in
  let r2 := deactivate (node_of r1) (world_of r1) in
  active_ Scripted.fresh_node = false /\
  held = None /\
  count is_cancelAll (calls_of r1 ++ calls_of r2) = 2%nat /\
  effective_cancels held (calls_of r1 ++ calls_of r2) = 0%nat /\
  effective_cancels held (calls_of r1 ++ calls_of r2) <> 1%nat.
Proof.
  vm_compute. repeat split. discriminate.
Qed.

(** ** The action server holds a goal exactly while the node is active *)
Section Ledger.
Context {C : Collab}.

Lemma executor_after_app (held : option MotionGoal.t) (t1 t2 : list Call) :
  executor_after held (t1 ++ t2) = executor_after (executor_after held t1) t2.
Proof.
  revert held. induction t1 as [|c t1 IH]; intros held; [reflexivity|].
  destruct c; cbn [app executor_after]; apply IH.
Qed.

Lemma count_app (p : Call -> bool) (t1 t2 : list Call) :
  count p (t1 ++ t2) = (count p t1 + count p t2)%nat.
Proof. unfold count. rewrite filter_app. apply length_app. Qed.

(** Each handler re-establishes the correspondence, and a handler that
    switches the node on sends exactly one goal, one that switches it
    off cancels. *)
Lemma handle_keeps_ledger (e : Event) (held : option MotionGoal.t)
    (n : Node) (w : World) :
  active_ n = holds_command held ->
  let r := handle e n w in
  active_ (node_of r) = holds_command (executor_after held (calls_of r)) /\
  implb (negb (active_ n) && active_ (node_of r))
        (Nat.eqb (count is_sendGoal (calls_of r)) 1) = true /\
  implb (active_ n && negb (active_ (node_of r)))
        (existsb is_cancelAll (calls_of r)) = true.
Proof.
  destruct e as [map | goal |]; cbn [handle]; cbv zeta.
  - unfold_methods. cbn. destruct (active_ n); auto.
  - run_method; cbn; intros ->; auto; destruct (holds_command held); auto.
  - intros H. destruct (active_ n) eqn:Ha.
    + unfold_methods. rewrite Ha. cbn [negb].
      repeat step; cbn; rewrite ?Ha; auto.
    + unfold_methods. rewrite Ha. cbn. rewrite Ha. auto.
Qed.

Lemma run_keeps_ledger (es : list Event) (held : option MotionGoal.t)
    (n : Node) (w : World) :
  active_ n = holds_command held ->
  active_ (node_of (run es n w))
  = holds_command (executor_after held (calls_of (run es n w))).
Proof.
  revert held n w. induction es as [|e es IH]; intros held n w H.
  - exact H.
  - cbn [run]. unfold bind.
    destruct (handle_keeps_ledger e held n w H) as [H1 _].
    destruct (handle e n w) as [[[u n1] w1] t1].
    unfold node_of, calls_of in H1. cbn [fst snd] in H1.
    specialize (IH _ n1 w1 H1).
    destruct (run es n1 w1) as [[[u2 n2] w2] t2].
    unfold node_of, calls_of in *. cbn [fst snd] in *.
    rewrite executor_after_app. exact IH.
Qed.

(** Construction leaves the node idle and calls nothing on the action
    client. *)
Lemma constructed_idle (w : World) :
  active_ (fst (fst (CombinedPlannerNode w))) = false /\
  executor_after None (snd (CombinedPlannerNode w)) = None.
Proof.
  unfold CombinedPlannerNode, CombinedPlannerNode_body.
  run_method. cbn. auto.
Qed.

(** C2.  After construction and any sequence of map messages, goal
    messages and ticks, [active_] is true exactly when the action server
    holds a path-following goal that this node sent and has not
    cancelled since.  Every further event keeps it so: a handler that
    takes the node from idle to active sends exactly one goal, and one
    that takes it from active to idle calls [cancelAllGoals]. *)
Theorem active_iff_executor_holds_command (es : list Event) (e : Event)
    (w : World) :
  let r0 := run_main es w in
  let n := fst (fst r0) in
  let r := handle e n (snd (fst r0)) in
  active_ n = holds_command (executor_after None (snd r0)) /\
  active_ (node_of r)
  = holds_command (executor_after None (snd r0 ++ calls_of r)) /\
  implb (negb (active_ n) && active_ (node_of r))
        (Nat.eqb (count is_sendGoal (calls_of r)) 1) = true /\
  implb (active_ n && negb (active_ (node_of r)))
        (existsb is_cancelAll (calls_of r)) = true.
Proof.
  cbv zeta.
  assert (H0 : active_ (fst (fst (run_main es w)))
               = holds_command (executor_after None (snd (run_main es w)))).
  { unfold run_main.
    destruct (constructed_idle w) as [Ha Hx].
    destruct (CombinedPlannerNode w) as [[n0 w0] tr0]. cbn [fst snd] in *.
    pose proof (run_keeps_ledger es None n0 w0 Ha) as Hr.
    destruct (run es n0 w0) as [[[u n1] w1] t1].
    unfold node_of, calls_of in Hr. cbn [fst snd] in *.
    rewrite executor_after_app, Hx. exact Hr. }
  split; [exact H0|].
  rewrite executor_after_app.
  apply handle_keeps_ledger. exact H0.
Qed.

End Ledger.

(** ** The replan hint *)
Section ReplanHint.
Context {C : Collab}.

(** C8, as the code has it.  A tick calls [planner_.update] at most
    once, and the hint it passes is [false]; the
    replan timer has no part in it: putting any other reading into
    [replan_timer_] changes no call the tick makes. *)
Theorem replan_hint_always_false (timer : Stopwatch.t) (n : Node) (w : World) :
  update_hints (calls_of (update n w))
  = repeat false (count is_planner_update (calls_of (update n w))) /\
  (count is_planner_update (calls_of (update n w)) <= 1)%nat /\
  calls_of (update (set_replan_timer_ timer n) w) = calls_of (update n w) /\
  world_of (update (set_replan_timer_ timer n) w) = world_of (update n w).
Proof.
  unfold_methods. cbn [active_ gmap_frame_id_ set_replan_timer_].
  repeat step; cbn; repeat split; auto.
Qed.

End ReplanHint.

(** C8, as stated, fails.  A mission is under way and the replan timer,
    started at clock reading 1000, is read at 2000: more than 500 ms
    have elapsed, yet the hint passed is [false]. *)
Lemma replan_hint_ignores_elapsed_time :
  active_ Scripted.busy_node = true /\
  Stopwatch.msElapsed 2000 (replan_timer_ Scripted.busy_node) = 1000 /\
  ~ hint_follows_interval (C := Scripted.collab) Scripted.busy_node
      (Scripted.with_clock_ms 2000 Scripted.busy_world).
Proof.
  split; [reflexivity|]. split; [reflexivity|].
  intros H. specialize (H false).
  assert (Hin : In false
            (update_hints
               (calls_of (update (C := Scripted.collab) Scripted.busy_node
                            (Scripted.with_clock_ms 2000 Scripted.busy_world))))).
  { vm_compute. left. reflexivity. }
  apply H in Hin. vm_compute in Hin. discriminate Hin.
Qed.

(** ** The map-received flag and the stored frame identifier *)
Section MapState.
Context {C : Collab}.

(** [updateGoal] does not read [got_map_]. *)
Lemma updateGoal_ignores_got_map (b : bool) (goal : PoseStamped.t)
    (n : Node) (w : World) :
  updateGoal goal (set_got_map_ b n) w =
  (tt, set_got_map_ b (node_of (updateGoal goal n w)),
   world_of (updateGoal goal n w), calls_of (updateGoal goal n w)).
Proof.
  unfold_methods. cbn [active_ gmap_frame_id_ set_got_map_].
  repeat step; reflexivity.
Qed.

(** Nor does [update]. *)
Lemma update_ignores_got_map (b : bool) (n : Node) (w : World) :
  update (set_got_map_ b n) w =
  (tt, set_got_map_ b (node_of (update n w)),
   world_of (update n w), calls_of (update n w)).
Proof.
  unfold_methods. cbn [active_ gmap_frame_id_ set_got_map_].
  repeat step; reflexivity.
Qed.

(** What decides how far goal adoption gets: the pose is looked up
    unless the goal's conversion threw, [setGoal] is called exactly when
    the lookup succeeded, and the action server is waited for exactly
    when [setGoal] returned and a valid path was reported. *)
Lemma updateGoal_gates (goal : PoseStamped.t) (n : Node) (w : World) :
  let tr := calls_of (updateGoal goal n w) in
  existsb is_pose_lookup tr = negb (existsb goal_transform_failed tr) /\
  existsb is_setGoal tr = existsb pose_lookup_ok tr /\
  existsb is_waitForServer tr
  = existsb setGoal_ok tr && existsb valid_path_yes tr.
Proof.
  run_method; cbn; auto.
Qed.

(** The node as constructed. *)
Lemma constructed_fields (w : World) :
  let n0 := fst (fst (CombinedPlannerNode w)) in
  got_map_ n0 = false /\ gmap_frame_id_ n0 = "" /\
  gmap_cpy_ n0 = OccupancyGrid.default.
Proof.
  unfold CombinedPlannerNode, CombinedPlannerNode_body.
  run_method. cbn. auto.
Qed.

(** A goal handled by a node that still has the empty frame identifier
    and the default grid. *)
Lemma updateGoal_before_first_map (goal : PoseStamped.t) (n : Node) (w : World) :
  gmap_frame_id_ n = "" ->
  gmap_cpy_ n = OccupancyGrid.default ->
  Forall before_first_map (calls_of (updateGoal goal n w)).
Proof.
  intros Hf Hm. run_method;
    each_call ltac:(cbn; rewrite ?Hf, ?Hm;
                    first [ solve [auto]
                          | split; [reflexivity |];
                            match goal with
                            | E : String.eqb _ _ = false |- _ =>
                                rewrite Hf in E; apply String.eqb_neq; exact E
                            end ]).
Qed.

(** Every message a handler publishes carries the frame identifier the
    node stored before the handler ran; only [updateMap] changes that
    identifier, and it publishes nothing. *)
Lemma handle_stamps_stored_frame (e : Event) (n : Node) (w : World) :
  Forall (stamped_with (gmap_frame_id_ n)) (calls_of (handle e n w)) /\
  match e with
  | MapMsg _ =>
      gmap_frame_id_ (node_of (handle e n w)) = "/map" /\
      got_map_ (node_of (handle e n w)) = true /\
      calls_of (handle e n w) = []
  | _ =>
      gmap_frame_id_ (node_of (handle e n w)) = gmap_frame_id_ n /\
      got_map_ (node_of (handle e n w)) = got_map_ n
  end.
Proof.
  destruct e as [map | goal |]; cbn [handle].
  - unfold_methods. cbn. auto.
  - run_method; cbn;
      (split; [each_call ltac:(cbn; auto) | auto]).
  - run_method; cbn;
      (split; [each_call ltac:(cbn; auto) | auto]).
Qed.

Lemma stamped_with_stored (n : Node) (tr : list Call) :
  stored_frame_ok n ->
  Forall (stamped_with (gmap_frame_id_ n)) tr ->
  Forall stamped_empty_or_map tr.
Proof.
  unfold stored_frame_ok. intros Hn H.
  eapply Forall_impl; [|exact H].
  intros c Hc. rewrite Hn in Hc.
  destruct (got_map_ n); [right | left]; exact Hc.
Qed.

Lemma handle_keeps_stored_frame (e : Event) (n : Node) (w : World) :
  stored_frame_ok n -> stored_frame_ok (node_of (handle e n w)).
Proof.
  unfold stored_frame_ok. intros Hn.
  destruct (handle_stamps_stored_frame e n w) as [_ H].
  destruct e; [destruct H as (-> & -> & _); reflexivity | |];
    destruct H as [-> ->]; exact Hn.
Qed.

Lemma run_keeps_stored_frame (es : list Event) (n : Node) (w : World) :
  stored_frame_ok n ->
  stored_frame_ok (node_of (run es n w)) /\
  Forall stamped_empty_or_map (calls_of (run es n w)).
Proof.
  revert n w. induction es as [|e es IH]; intros n w Hn.
  - split; [exact Hn | constructor].
  - cbn [run]. unfold bind.
    pose proof (handle_keeps_stored_frame e w Hn) as H1.
    pose proof (proj1 (handle_stamps_stored_frame e n w)) as H2.
    apply (stamped_with_stored Hn) in H2.
    destruct (handle e n w) as [[[u n1] w1] t1].
    unfold node_of, calls_of in H1, H2. cbn [fst snd] in H1, H2.
    destruct (IH n1 w1 H1) as [IH1 IH2].
    destruct (run es n1 w1) as [[[u2 n2] w2] t2].
    unfold node_of, calls_of in *. cbn [fst snd] in *.
    split; [exact IH1 | apply Forall_app; split; assumption].
Qed.

Lemma constructed_publishes_nothing (w : World) :
  Forall stamped_empty_or_map (snd (CombinedPlannerNode w)).
Proof.
  unfold CombinedPlannerNode, CombinedPlannerNode_body.
  run_method. cbn.
  each_call ltac:(left; exact I).
Qed.

End MapState.

(** C9.  Goal adoption never looks at [got_map_].  The constructor
    leaves the flag false, and whatever the flag is set to, [updateGoal]
    and [update] make the same calls, leave the same world and change the
    node in the same way.  How far adoption gets is decided by the
    outcomes of its calls alone.  For a goal that arrives before any map,
    the frame compared against and handed to tf is the empty string and
    the global map the planner plans on is the default-constructed grid;
    with collaborators that all succeed such a goal activates the
    node. *)
Theorem goal_adoption_ignores_got_map :
  (forall (C : Collab) (b : bool) (goal : PoseStamped.t) (n : Node) (w : World),
      updateGoal goal (set_got_map_ b n) w =
      (tt, set_got_map_ b (node_of (updateGoal goal n w)),
       world_of (updateGoal goal n w), calls_of (updateGoal goal n w)) /\
      update (set_got_map_ b n) w =
      (tt, set_got_map_ b (node_of (update n w)),
       world_of (update n w), calls_of (update n w))) /\
  (forall (C : Collab) (goal : PoseStamped.t) (n : Node) (w : World),
      let tr := calls_of (updateGoal goal n w) in
      existsb is_pose_lookup tr = negb (existsb goal_transform_failed tr) /\
      existsb is_setGoal tr = existsb pose_lookup_ok tr /\
      existsb is_waitForServer tr
      = existsb setGoal_ok tr && existsb valid_path_yes tr) /\
  (forall (C : Collab) (goal : PoseStamped.t) (w : World),
      let n0 := fst (fst (CombinedPlannerNode w)) in
      let w0 := snd (fst (CombinedPlannerNode w)) in
      got_map_ n0 = false /\
      Forall before_first_map (calls_of (updateGoal goal n0 w0))) /\
  (let r := run_main (C := Scripted.collab)
              [GoalMsg Scripted.goal_unframed] Scripted.fair_weather in
   got_map_ (fst (fst r)) = false /\
   active_ (fst (fst r)) = true /\
   existsb setGoal_ok (snd r) = true).
Proof.
  split; [| split; [| split]].
  - intros C b goal n w. split.
    + apply updateGoal_ignores_got_map.
    + apply update_ignores_got_map.
  - intros C goal n w. apply updateGoal_gates.
  - intros C goal w n0 w0.
    destruct (constructed_fields w) as (Hg & Hf & Hm).
    split; [exact Hg|].
    apply updateGoal_before_first_map; assumption.
  - vm_compute. repeat split.
Qed.

(** C10.  [updateMap] stores ["/map"] as the frame identifier whatever
    frame the incoming grid carries.  Hence, in every state reached from
    construction, the stored identifier is the empty string if no map has
    arrived and ["/map"] otherwise; every path and marker message a
    handler publishes is stamped with the identifier stored when the
    handler started, which no handler but [updateMap] changes; and so
    every message published in a run is stamped [""] or ["/map"]. *)
Theorem stored_frame_is_map_constant :
  (forall (C : Collab) (map : OccupancyGrid.t) (n : Node) (w : World),
      gmap_frame_id_ (node_of (updateMap map n w)) = "/map") /\
  (forall (C : Collab) (es : list Event) (w : World),
      let r := run_main es w in
      (gmap_frame_id_ (fst (fst r)) = "" \/ gmap_frame_id_ (fst (fst r)) = "/map") /\
      gmap_frame_id_ (fst (fst r))
      = (if got_map_ (fst (fst r)) then "/map" else "") /\
      Forall stamped_empty_or_map (snd r)) /\
  (forall (C : Collab) (e : Event) (n : Node) (w : World),
      Forall (stamped_with (gmap_frame_id_ n)) (calls_of (handle e n w)) /\
      match e with
      | MapMsg _ =>
          gmap_frame_id_ (node_of (handle e n w)) = "/map" /\
          got_map_ (node_of (handle e n w)) = true /\
          calls_of (handle e n w) = []
      | _ =>
          gmap_frame_id_ (node_of (handle e n w)) = gmap_frame_id_ n /\
          got_map_ (node_of (handle e n w)) = got_map_ n
      end).
Proof.
  split; [| split].
  - intros C map n w. reflexivity.
  - intros C es w r. subst r. unfold run_main.
    destruct (constructed_fields w) as (Hg & Hf & _).
    pose proof (constructed_publishes_nothing w) as Hp.
    destruct (CombinedPlannerNode w) as [[n0 w0] tr0]. cbn [fst snd] in *.
    assert (H0 : stored_frame_ok n0).
    { unfold stored_frame_ok. rewrite Hg. exact Hf. }
    destruct (run_keeps_stored_frame es w0 H0) as [H1 H2].
    destruct (run es n0 w0) as [[[u n1] w1] t1].
    unfold node_of, calls_of in *. cbn [fst snd] in *.
    unfold stored_frame_ok in H1.
    repeat split.
    + rewrite H1. destruct (got_map_ n1); auto.
    + exact H1.
    + apply Forall_app. split; assumption.
  - intros C e n w. apply handle_stamps_stored_frame.
Qed.

Example map_frame_is_overridden :
  let odom_map :=
    OccupancyGrid.mk (Header.mk 7 (Time.mk 3 0) "/odom") 0.05 2 1 Pose.default
                     [0; 100] in
  let r := run_main (C := Scripted.collab) [MapMsg odom_map] Scripted.fair_weather in
  gmap_frame_id_ (fst (fst r)) = "/map" /\
  Header.frame_id (OccupancyGrid.header (gmap_cpy_ (fst (fst r)))) = "/odom".
Proof. vm_compute. split; reflexivity. Qed.

(** * Further properties of the handlers *)

(** ** More about a tick *)
Section TickOutcomes.
Context {C : Collab}.

(** X1.  An active tick on which the planner reports no valid path ends the
    mission: nothing is logged as an error, [cancelAllGoals] is called
    once, the one message on the path topic is the one without poses,
    and the node is idle afterwards. *)
Theorem no_valid_path_ends_mission (n : Node) (w : World) :
  active_ n = true ->
  existsb valid_path_no (calls_of (update n w)) = true ->
  active_ (node_of (update n w)) = false /\
  count is_cancelAll (calls_of (update n w)) = 1%nat /\
  existsb is_error_log (calls_of (update n w)) = false /\
  existsb is_sendGoal (calls_of (update n w)) = false /\
  exists t,
    published_paths (calls_of (update n w))
    = [Path.mk (Header.mk 0 t (gmap_frame_id_ n)) []].
Proof.
  intros Ha. unfold_methods. rewrite Ha. cbn [negb].
  repeat step; cbn; intros; try discriminate;
    (repeat split; auto; eexists; reflexivity).
Qed.

(** X2.  An active tick on which the planner has a new local path publishes
    it: the one message on the path topic carries, pose for pose, the
    local path the planner returned, stamped with the stored frame; the
    replan timer is restarted with a fresh clock reading; one marker,
    for the waypoints, is published; the action client is not called at
    all; the node stays active. *)
Theorem new_local_path_is_published (n : Node) (w : World) :
  active_ n = true ->
  existsb new_local_path_yes (calls_of (update n w)) = true ->
  active_ (node_of (update n w)) = true /\
  existsb is_executor_call (calls_of (update n w)) = false /\
  exists lpath t ms wp t',
    local_paths_read (calls_of (update n w)) = [lpath] /\
    published_paths (calls_of (update n w))
    = [Path.mk (Header.mk 0 t (gmap_frame_id_ n)) (map pose_of_planner lpath)] /\
    stopwatch_readings (calls_of (update n w)) = [ms] /\
    replan_timer_ (node_of (update n w)) = Stopwatch.mk ms /\
    waypoints_read (calls_of (update n w)) = [wp] /\
    published_markers (calls_of (update n w))
    = [Marker.mk (Header.mk 0 t' (gmap_frame_id_ n)) "waypoints" 3
         Marker.LINE_LIST Marker.ADD scale_0_1f 0%float
         (ColorRGBA.mk 0%float 1%float 0%float 1%float)
         (flat_map waypoint_points wp)].
Proof.
  intros Ha. unfold_methods. rewrite Ha. cbn [negb].
  repeat step; cbn; intros; try discriminate.
  repeat split; auto. do 5 eexists. repeat split; reflexivity.
Qed.

(** X3.  Whatever happens on a tick, [update] never sends a goal, never waits
    for the action server, never sets a goal or the global map on the
    planner, never asks tf to convert a pose and never reads the global
    path; it cancels at most once, publishes at most one path message,
    and never turns an idle node active. *)
Theorem tick_never_adopts_a_goal (n : Node) (w : World) :
  existsb adoption_only (calls_of (update n w)) = false /\
  (count is_cancelAll (calls_of (update n w)) <= 1)%nat /\
  (length (published_paths (calls_of (update n w))) <= 1)%nat /\
  implb (active_ (node_of (update n w))) (active_ n) = true.
Proof.
  destruct (active_ n) eqn:Ha; unfold_methods; rewrite Ha; cbn [negb].
  - repeat step; cbn; rewrite ?Ha; repeat split; auto using Bool.implb_true_r.
    all: destruct (active_ _); reflexivity.
  - cbn. rewrite Ha. repeat split; auto.
Qed.

End TickOutcomes.

Lemma no_valid_path_ends_mission_witness :
  let n := Scripted.busy_node in
  let w := Scripted.with_valid_path false Scripted.busy_world in
  active_ n = true /\
  existsb valid_path_no (calls_of (update n w)) = true /\
  active_ (node_of (update n w)) = false /\
  count is_cancelAll (calls_of (update n w)) = 1%nat.
Proof.
  intros n w.
  split; [reflexivity|]. split; [reflexivity|].
  pose proof (no_valid_path_ends_mission (C := Scripted.collab) n w
                eq_refl eq_refl) as H.
  split; [exact (proj1 H) | exact (proj1 (proj2 H))].
Defined.

Lemma new_local_path_is_published_witness :
  let n := Scripted.busy_node in
  let w := Scripted.busy_world in
  active_ n = true /\
  existsb new_local_path_yes (calls_of (update n w)) = true /\
  active_ (node_of (update n w)) = true /\
  existsb is_executor_call (calls_of (update n w)) = false.
Proof.
  intros n w.
  split; [reflexivity|]. split; [reflexivity|].
  pose proof (new_local_path_is_published (C := Scripted.collab) n w
                eq_refl eq_refl) as H.
  split; [exact (proj1 H) | exact (proj1 (proj2 H))].
Defined.

(** ** More about goal adoption *)
Section GoalAdoption.
Context {C : Collab}.

(** X4.  A goal request during which no robot pose is obtained, because the
    goal could not be converted or because the lookup threw, leaves the
    planner untouched: no call on [planner_], no costmap copy fetched,
    exactly one error logged, the only call on the action client is the
    initial cancel, and the node is idle. *)
Theorem goal_dropped_without_pose (goal : PoseStamped.t) (n : Node) (w : World) :
  existsb pose_lookup_ok (calls_of (updateGoal goal n w)) = false ->
  count is_planner_call (calls_of (updateGoal goal n w)) = 0%nat /\
  costmap_copies (calls_of (updateGoal goal n w)) = [] /\
  count is_error_log (calls_of (updateGoal goal n w)) = 1%nat /\
  filter is_executor_call (calls_of (updateGoal goal n w))
  = [MotionCancelAllGoals] /\
  active_ (node_of (updateGoal goal n w)) = false.
Proof.
  run_method; cbn; intros; try discriminate; auto.
Qed.

(** X5.  What the planner is asked to plan: tf is asked to convert the goal
    exactly when the goal's frame differs from the stored one; the start
    pose handed to [setGoal] is the robot pose just looked up, and the
    end pose is taken from the converted goal if there was a conversion
    and from the goal as received otherwise. *)
Theorem goal_planned_from_robot_pose (goal : PoseStamped.t) (n : Node) (w : World) :
  let tr := calls_of (updateGoal goal n w) in
  existsb is_transformPose tr
  = negb (Header.frame_id (PoseStamped.header goal) =? gmap_frame_id_ n)%string /\
  setGoal_args tr
  = map (fun msg => (robot_pose_of msg,
                     pathEnd_of (hd goal (goals_converted tr))))
        (transforms_found tr).
Proof.
  run_method; cbn; auto.
Qed.

(** X6.  Every goal request cancels exactly once and publishes exactly one
    message on the path topic, the one without poses: the planned path
    itself reaches the executor only inside the action goal, which
    carries the local path read from the planner (read at most once), the
    node's path topic and the fixed speed and tolerance.  A goal request
    does not restart the replan timer. *)
Theorem goal_request_publishes_only_the_cleared_path (goal : PoseStamped.t)
    (n : Node) (w : World) :
  let tr := calls_of (updateGoal goal n w) in
  count is_cancelAll tr = 1%nat /\
  (exists t, published_paths tr = [Path.mk (Header.mk 0 t (gmap_frame_id_ n)) []]) /\
  sent_goals tr = map (motionGoal_for (path_topic_ n)) (local_paths_read tr) /\
  (length (local_paths_read tr) <= 1)%nat /\
  stopwatch_readings tr = [].
Proof.
  run_method; cbn; (repeat split; auto; eexists; reflexivity).
Qed.

(** X7.  Once a valid path is found the goal is reported as updated and the
    global path and the waypoints are published as markers, whether or
    not the action server came up: with the server down the node logs
    the warning, stays idle and still logs "Goal updated.". *)
Theorem goal_updated_reported_even_if_server_down (goal : PoseStamped.t)
    (n : Node) (w : World) :
  let tr := calls_of (updateGoal goal n w) in
  existsb is_goal_updated_log tr = existsb valid_path_yes tr /\
  length (published_markers tr) = (2 * count valid_path_yes tr)%nat /\
  existsb is_warn_log tr
  = existsb valid_path_no tr
    || (existsb valid_path_yes tr && negb (active_ (node_of (updateGoal goal n w)))).
Proof.
  run_method; cbn; auto.
Qed.

(** X8.  [activate] on its own: it cancels first exactly when the node is
    active, waits for the server once, for 1.0 s; if the server answers,
    the node ends active with exactly one goal sent, the one built from
    the local path; if not, nothing is sent and the node ends idle even
    if it was active before. *)
Theorem activate_cancels_before_sending (n : Node) (w : World) :
  let r := activate n w in
  count is_cancelAll (calls_of r) = (if active_ n then 1 else 0)%nat /\
  count is_waitForServer (calls_of r) = 1%nat /\
  active_ (node_of r) = existsb server_ready_in_1s (calls_of r) /\
  sent_goals (calls_of r)
  = map (motionGoal_for (path_topic_ n)) (local_paths_read (calls_of r)) /\
  length (sent_goals (calls_of r))
  = count server_ready_in_1s (calls_of r) /\
  executor_after None (calls_of r)
  = hd_error (sent_goals (calls_of r)).
Proof.
  cbv zeta. destruct (active_ n) eqn:Ha; unfold_methods; rewrite Ha;
    repeat step; cbn; rewrite ?Ha; auto 10.
Qed.

End GoalAdoption.

Lemma goal_dropped_without_pose_witness :
  let n := Scripted.busy_node in
  let w1 := Scripted.with_lookup (inl "no transform") Scripted.busy_world in
  let w2 := Scripted.with_transformed (inl "no transform") Scripted.busy_world in
  (existsb pose_lookup_ok (calls_of (updateGoal Scripted.goal_in_map n w1)) = false /\
   existsb pose_lookup_ok (calls_of (updateGoal Scripted.goal_in_odom n w2)) = false) /\
  (count is_planner_call (calls_of (updateGoal Scripted.goal_in_map n w1)) = 0%nat /\
   active_ (node_of (updateGoal Scripted.goal_in_map n w1)) = false) /\
  (count is_planner_call (calls_of (updateGoal Scripted.goal_in_odom n w2)) = 0%nat /\
   active_ (node_of (updateGoal Scripted.goal_in_odom n w2)) = false).
Proof.
  intros n w1 w2.
  split; [split; reflexivity|].
  split.
  - pose proof (goal_dropped_without_pose (C := Scripted.collab)
                  Scripted.goal_in_map n w1 eq_refl) as H.
    split; [exact (proj1 H) | exact (proj2 (proj2 (proj2 (proj2 H))))].
  - pose proof (goal_dropped_without_pose (C := Scripted.collab)
                  Scripted.goal_in_odom n w2 eq_refl) as H.
    split; [exact (proj1 H) | exact (proj2 (proj2 (proj2 (proj2 H))))].
Defined.

Example goal_in_other_frame_is_converted :
  setGoal_args
    (calls_of (updateGoal (C := Scripted.collab) Scripted.goal_in_odom
                 Scripted.busy_node Scripted.busy_world))
  = [(Pose2d.mk 1 2 0, Pose2d.mk 5 6 0)].
Proof. vm_compute. reflexivity. Qed.

Example server_down_goal_still_reported :
  let r := updateGoal (C := Scripted.collab) Scripted.goal_in_map
             Scripted.busy_node
             (Scripted.with_server_ready false Scripted.busy_world) in
  active_ (node_of r) = false /\
  existsb is_goal_updated_log (calls_of r) = true /\
  sent_goals (calls_of r) = [].
Proof. vm_compute. repeat split. Qed.

(** ** The maps the planner reads *)
Section PlannerMaps.
Context {C : Collab}.

Lemma pick_app {A : Type} (f : Call -> option A) (t1 t2 : list Call) :
  pick f (t1 ++ t2) = pick f t1 ++ pick f t2.
Proof. unfold pick. apply flat_map_app. Qed.

Ltac maps_cases :=
  unfold plans_on_fresh_local_map, node_of, calls_of; cbn;
  (split; [reflexivity|]);
  first [ left; repeat split; reflexivity
        | right; eexists; split; [reflexivity|]; split; [reflexivity|];
          each_call ltac:(cbn; auto; repeat split; auto; discriminate) ].

Lemma update_reads_maps (n : Node) (w : World) :
  plans_on_fresh_local_map n (update n w).
Proof.
  destruct (active_ n) eqn:Ha; unfold_methods; rewrite Ha; cbn [negb].
  - repeat step; maps_cases.
  - maps_cases.
Qed.

Lemma updateGoal_reads_maps (goal : PoseStamped.t) (n : Node) (w : World) :
  plans_on_fresh_local_map n (updateGoal goal n w).
Proof.
  run_method; maps_cases.
Qed.

(** X9.  The local map the planner plans on is always the copy fetched in
    the same handler.  A goal request or a tick that makes any planner
    call reading a map has fetched exactly one costmap copy and stored it
    in [lmap_cpy_]; every such call sees that copy (but for
    [setGlobalMap], which comes before the fetch), the node's global map
    copy and the thresholds of the local wrapper.  Neither handler
    changes the global map copy. *)
Theorem planner_plans_on_fresh_local_map :
  (forall (goal : PoseStamped.t) (n : Node) (w : World),
      plans_on_fresh_local_map n (updateGoal goal n w)) /\
  (forall (n : Node) (w : World),
      plans_on_fresh_local_map n (update n w)).
Proof.
  split; [exact updateGoal_reads_maps | exact update_reads_maps].
Qed.

(** X10.  A map message is only stored: [updateMap] makes no call, leaves the
    world and [active_] alone and keeps the grid as received.  The
    planner nevertheless plans on it from the next tick on, without
    [setGlobalMap] being called again: every planner call of that tick
    reads the new grid through the pointer set at goal adoption. *)
Theorem map_update_reaches_planner (map : OccupancyGrid.t) (n : Node)
    (w w' : World) :
  let r := updateMap map n w in
  calls_of r = [] /\ world_of r = w /\
  active_ (node_of r) = active_ n /\
  gmap_cpy_ (node_of r) = map /\
  existsb is_setGlobalMap (calls_of (update (node_of r) w')) = false /\
  Forall (reads_global_map map) (calls_of (update (node_of r) w')).
Proof.
  cbv zeta.
  assert (E : updateMap map n w
              = (tt, set_got_map_ true (set_gmap_frame_id_ "/map" (set_gmap_cpy_ map n)),
                 w, [])) by reflexivity.
  rewrite E. unfold node_of, world_of, calls_of. cbn [fst snd].
  repeat split.
  - destruct (active_ n) eqn:Ha; unfold_methods;
      cbn [active_ set_got_map_ set_gmap_frame_id_ set_gmap_cpy_];
      rewrite Ha; cbn [negb]; repeat step; reflexivity.
  - set (n1 := set_got_map_ true _).
    destruct (update_reads_maps n1 w') as [_ H].
    unfold calls_of in H.
    destruct H as [(_ & Hs & _) | (cm & _ & _ & Hf)].
    + revert Hs. generalize (snd (update n1 w')).
      induction l as [|c l IH]; intros Hs; constructor.
      * unfold reads_global_map. unfold pick in Hs. cbn in Hs.
        destruct (store_of c); [discriminate Hs | exact I].
      * apply IH. unfold pick in *. cbn in Hs.
        destruct (store_of c); [discriminate Hs | exact Hs].
    + eapply Forall_impl; [|exact Hf].
      intros c Hc. unfold reads_maps in Hc. unfold reads_global_map.
      destruct (store_of c); [|exact I].
      destruct Hc as [Hc _]. exact Hc.
Qed.

End PlannerMaps.

Example new_map_is_planned_on :
  let odom_map :=
    OccupancyGrid.mk (Header.mk 7 (Time.mk 3 0) "/odom") 0.05 2 1 Pose.default
                     [0; 100] in
  let n1 := node_of (updateMap (C := Scripted.collab) odom_map
                       Scripted.busy_node Scripted.busy_world) in
  map (fun st => OccupancyGrid.data (MapStore.gmap st))
      (pick store_of (calls_of (update n1 Scripted.busy_world)))
  = [[0; 100]; [0; 100]].
Proof. vm_compute. reflexivity. Qed.

(** ** Whole runs *)
Section Runs.
Context {C : Collab}.

(** What no handler changes, and what every handler respects: the path
    topic and the thresholds of the local wrapper stay as they are, no
    handler subscribes or advertises, every goal sent names the node's
    path topic, every planner call is made with the node's thresholds. *)
Lemma handle_keeps_config (e : Event) (n : Node) (w : World) :
  let r := handle e n w in
  (map_topic_ (node_of r) = map_topic_ n /\
   goal_topic_ (node_of r) = goal_topic_ n /\
   path_topic_ (node_of r) = path_topic_ n) /\
  lmap_lower_threshold_ (node_of r) = lmap_lower_threshold_ n /\
  lmap_upper_threshold_ (node_of r) = lmap_upper_threshold_ n /\
  advertised (calls_of r) = [] /\
  subscribed (calls_of r) = [] /\
  Forall (goal_on_topic (path_topic_ n)) (calls_of r) /\
  Forall (thresholds_as (lmap_lower_threshold_ n) (lmap_upper_threshold_ n))
         (calls_of r).
Proof.
  destruct e as [map | goal |]; cbn [handle]; cbv zeta.
  - unfold_methods. cbn. repeat split; constructor.
  - run_method;
      unfold node_of, calls_of; cbn;
      (repeat split; try reflexivity;
       each_call ltac:(cbn; auto)).
  - destruct (active_ n) eqn:Ha; unfold_methods; rewrite Ha; cbn [negb].
    + repeat step; cbn;
        (repeat split; try reflexivity; each_call ltac:(cbn; auto)).
    + cbn. repeat split; constructor.
Qed.

Lemma run_keeps_config (es : list Event) (n : Node) (w : World) :
  let r := run es n w in
  (map_topic_ (node_of r) = map_topic_ n /\
   goal_topic_ (node_of r) = goal_topic_ n /\
   path_topic_ (node_of r) = path_topic_ n) /\
  advertised (calls_of r) = [] /\
  subscribed (calls_of r) = [] /\
  Forall (goal_on_topic (path_topic_ n)) (calls_of r) /\
  Forall (thresholds_as (lmap_lower_threshold_ n) (lmap_upper_threshold_ n))
         (calls_of r).
Proof.
  revert n w. induction es as [|e es IH]; intros n w; cbv zeta.
  - cbn. repeat split; constructor.
  - cbn [run]. unfold bind.
    destruct (handle_keeps_config e n w)
      as ((Hm & Hg & H1) & H2 & H3 & H4 & H5 & H6 & H7).
    destruct (handle e n w) as [[[u n1] w1] t1].
    unfold node_of, calls_of in Hm, Hg, H1, H2, H3, H4, H5, H6, H7.
    cbn [fst snd] in Hm, Hg, H1, H2, H3, H4, H5, H6, H7.
    destruct (IH n1 w1) as ((Im & Ig & I1) & I4 & I5 & I6 & I7).
    destruct (run es n1 w1) as [[[u2 n2] w2] t2].
    unfold node_of, calls_of in *. cbn [fst snd] in *.
    rewrite H1 in I1, I6. rewrite H2, H3 in I7. rewrite Hm in Im. rewrite Hg in Ig.
    unfold advertised, subscribed in *.
    rewrite !(@pick_app C), H4, H5, I4, I5.
    repeat split; auto; apply Forall_app; split; assumption.
Qed.

(** What construction does: the three topic names are whatever the
    parameter server answers for ["map_topic"], ["goal_topic"] and
    ["path_topic"] (asked with the defaults ["/map_inflated"], ["/goal"],
    ["/path"]); the node subscribes to the first two with queue size 1
    and advertises the third and ["visualization_markers"] with queue
    size 5; the thresholds of the local wrapper are 128 and 250. *)
Lemma constructed_config (w : World) :
  let r := CombinedPlannerNode w in
  let n := fst (fst r) in
  subscribed (snd r) = [(map_topic_ n, 1); (goal_topic_ n, 1)] /\
  advertised (snd r) = [(path_topic_ n, 5); ("visualization_markers", 5)] /\
  lmap_lower_threshold_ n = 128 /\ lmap_upper_threshold_ n = 250 /\
  Forall (goal_on_topic (path_topic_ n)) (snd r) /\
  Forall (thresholds_as 128 250) (snd r).
Proof.
  unfold CombinedPlannerNode, CombinedPlannerNode_body.
  run_method. cbn. repeat split; each_call ltac:(exact I).
Qed.

(** X11.  Over a whole run the node's wiring never changes: the only
    subscriptions and advertisements are those of the constructor (map
    and goal topic with queue size 1, path topic and
    ["visualization_markers"] with queue size 5), on the topics the node
    still holds; and every goal ever sent tells the
    executor to follow the path on the very topic the path publisher was
    advertised on, in path-following mode, with speed 0.7 and position
    tolerance 0.20. *)
Theorem goals_name_the_advertised_path_topic (es : list Event) (w : World) :
  let r := run_main es w in
  let n := fst (fst r) in
  subscribed (snd r) = [(map_topic_ n, 1); (goal_topic_ n, 1)] /\
  advertised (snd r) = [(path_topic_ n, 5); ("visualization_markers", 5)] /\
  Forall (goal_on_topic (path_topic_ n)) (snd r).
Proof.
  cbv zeta. unfold run_main.
  destruct (constructed_config w) as (Hs & Ha & _ & _ & Hg & _).
  destruct (CombinedPlannerNode w) as [[n0 w0] tr0]. cbn [fst snd] in *.
  destruct (run_keeps_config es n0 w0) as ((Im & Ig & I1) & I4 & I5 & I6 & _).
  destruct (run es n0 w0) as [[[u n1] w1] t1].
  unfold node_of, calls_of in *. cbn [fst snd] in *.
  unfold advertised, subscribed in *.
  rewrite !(@pick_app C), I4, I5, Ha, Hs, I1, Im, Ig, !app_nil_r.
  repeat split. apply Forall_app. split; assumption.
Qed.

(** X12.  Over a whole run every planner call that reads a map is made with
    the thresholds the constructor set on the local map wrapper, 128 and
    250. *)
Theorem planner_always_gets_constructor_thresholds (es : list Event) (w : World) :
  let r := run_main es w in
  lmap_lower_threshold_ (fst (fst r)) = 128 /\
  lmap_upper_threshold_ (fst (fst r)) = 250 /\
  Forall (thresholds_as 128 250) (snd r).
Proof.
  cbv zeta. unfold run_main.
  destruct (constructed_config w) as (_ & _ & Hl & Hu & _ & Ht).
  destruct (CombinedPlannerNode w) as [[n0 w0] tr0]. cbn [fst snd] in *.
  assert (Hrun : forall es n w,
             lmap_lower_threshold_ (node_of (run es n w)) = lmap_lower_threshold_ n /\
             lmap_upper_threshold_ (node_of (run es n w)) = lmap_upper_threshold_ n).
  { clear. induction es as [|e es IH]; intros n w; [split; reflexivity|].
    cbn [run]. unfold bind.
    destruct (handle_keeps_config e n w) as (_ & H2 & H3 & _).
    destruct (handle e n w) as [[[u n1] w1] t1].
    unfold node_of in H2, H3. cbn [fst snd] in H2, H3.
    destruct (IH n1 w1) as [I2 I3].
    destruct (run es n1 w1) as [[[u2 n2] w2] t2].
    unfold node_of in *. cbn [fst snd] in *.
    split; congruence. }
  destruct (Hrun es n0 w0) as [R2 R3].
  destruct (run_keeps_config es n0 w0) as (_ & _ & _ & _ & I7).
  destruct (run es n0 w0) as [[[u n1] w1] t1].
  unfold node_of, calls_of in *. cbn [fst snd] in *.
  rewrite Hl, Hu in *.
  repeat split; auto. apply Forall_app. split; assumption.
Qed.

(** X13.  Without a goal message nothing restarts a mission: from an idle
    node, any sequence of ticks and map messages makes no call at all,
    leaves the world untouched and the node idle. *)
Theorem idle_until_next_goal (es : list Event) (n : Node) (w : World) :
  active_ n = false ->
  existsb is_goal_event es = false ->
  calls_of (run es n w) = [] /\
  world_of (run es n w) = w /\
  active_ (node_of (run es n w)) = false.
Proof.
  revert n w. induction es as [|e es IH]; intros n w Ha Hes.
  - cbn. auto.
  - cbn [existsb] in Hes. apply orb_false_iff in Hes. destruct Hes as [He Hes].
    cbn [run]. unfold bind.
    destruct e as [map | goal |]; [| discriminate He |]; cbn [handle].
    + unfold updateMap, bind, modify. cbn [fst snd].
      specialize (IH (set_got_map_ true (set_gmap_frame_id_ "/map" (set_gmap_cpy_ map n)))
                     w Ha Hes).
      destruct (run es _ w) as [[[u2 n2] w2] t2].
      unfold node_of, world_of, calls_of in *. cbn [fst snd app] in *. exact IH.
    + rewrite (update_idle n w Ha).
      specialize (IH n w Ha Hes).
      destruct (run es n w) as [[[u2 n2] w2] t2].
      unfold node_of, world_of, calls_of in *. cbn [fst snd app] in *. exact IH.
Qed.

Lemma handle_counts (e : Event) (n : Node) (w : World) :
  (length (sent_goals (calls_of (handle e n w)))
   <= (if is_goal_event e then 1 else 0))%nat /\
  ((if is_goal_event e then 1 else 0)
   <= count is_cancelAll (calls_of (handle e n w)))%nat.
Proof.
  destruct e as [map | goal |]; cbn [handle is_goal_event].
  - unfold_methods. cbn. auto.
  - run_method; cbn; auto.
  - destruct (active_ n) eqn:Ha; unfold_methods; rewrite Ha; cbn [negb].
    + repeat step; cbn; auto.
    + cbn. auto.
Qed.

(** X14.  Over any run, at most one goal is sent to the executor per goal
    message received, and [cancelAllGoals] is called at least once per
    goal message: ticks and map messages never send a goal. *)
Theorem goals_sent_bounded_by_requests (es : list Event) (n : Node) (w : World) :
  (length (sent_goals (calls_of (run es n w))) <= goal_events es)%nat /\
  (goal_events es <= count is_cancelAll (calls_of (run es n w)))%nat.
Proof.
  revert n w. induction es as [|e es IH]; intros n w.
  - cbn. auto.
  - cbn [run]. unfold bind.
    destruct (handle_counts e n w) as [H1 H2].
    destruct (handle e n w) as [[[u n1] w1] t1].
    unfold calls_of in H1, H2. cbn [fst snd] in H1, H2.
    destruct (IH n1 w1) as [I1 I2].
    destruct (run es n1 w1) as [[[u2 n2] w2] t2].
    unfold calls_of in *. cbn [fst snd] in *.
    unfold sent_goals in *. rewrite (@pick_app C), length_app, (@count_app C).
    unfold goal_events in *. cbn [filter].
    destruct (is_goal_event e); cbn [length]; lia.
Qed.

End Runs.

Lemma idle_until_next_goal_witness :
  let es := [Tick; MapMsg OccupancyGrid.default; Tick; Tick] in
  active_ Scripted.fresh_node = false /\
  existsb is_goal_event es = false /\
  calls_of (run (C := Scripted.collab) es Scripted.fresh_node Scripted.fair_weather) = [] /\
  world_of (run (C := Scripted.collab) es Scripted.fresh_node Scripted.fair_weather)
  = Scripted.fair_weather /\
  active_ (node_of (run (C := Scripted.collab) es Scripted.fresh_node Scripted.fair_weather))
  = false.
Proof.
  intros es. split; [reflexivity|]. split; [reflexivity|].
  apply (idle_until_next_goal (C := Scripted.collab)); reflexivity.
Defined.

(** ** Building messages *)
Section Messages.
Context {C : Collab}.

(** X15.  [plannerPathToRos] appends one stamped pose per planner pose, in
    order, to what the output vector already holds; an empty planner path
    adds nothing.  Each pose added has the default header and height 0,
    and its position is the planner pose's position. *)
Theorem plannerPathToRos_appends (planner_p p2 : list Pose2d.t)
    (ros_p : list PoseStamped.t) :
  length (plannerPathToRos planner_p ros_p)
  = (length ros_p + length planner_p)%nat /\
  firstn (length ros_p) (plannerPathToRos planner_p ros_p) = ros_p /\
  plannerPathToRos [] ros_p = ros_p /\
  plannerPathToRos (planner_p ++ p2) ros_p
  = plannerPathToRos p2 (plannerPathToRos planner_p ros_p) /\
  map (fun ps => Pose.position (PoseStamped.pose ps))
      (plannerPathToRos planner_p [])
  = map (fun it => Point.mk (Pose2d.x it) (Pose2d.y it) 0%float) planner_p /\
  Forall (fun ps => PoseStamped.header ps = Header.default)
         (plannerPathToRos planner_p []).
Proof.
  unfold plannerPathToRos. repeat split.
  - rewrite length_app, length_map. reflexivity.
  - rewrite firstn_app, Nat.sub_diag, firstn_all. cbn. apply app_nil_r.
  - apply app_nil_r.
  - rewrite map_app. apply app_assoc.
  - cbn [app]. rewrite map_map. reflexivity.
  - cbn [app]. apply Forall_map. apply Forall_forall. reflexivity.
Qed.

Lemma waypoint_segments (wp : list Pose2d.t) :
  length (flat_map waypoint_points wp) = (2 * length wp)%nat /\
  segment_starts (flat_map waypoint_points wp)
  = map (fun it => Point.mk (Pose2d.x it) (Pose2d.y it) 0%float) wp.
Proof.
  induction wp as [|it wp [IH1 IH2]]; [split; reflexivity|].
  cbn [flat_map waypoint_points app length segment_starts map].
  rewrite IH1, IH2. split; [lia | reflexivity].
Qed.

(** X16.  [visualizeWaypoints] publishes exactly one marker, a green
    [LINE_LIST] stamped with the stored frame and carrying the given
    namespace and id, with one segment (two points) per waypoint: each
    segment starts at the waypoint's position at height 0.  It changes
    nothing in the node. *)
Theorem waypoints_marker_has_a_segment_per_waypoint (wp : list Pose2d.t)
    (ns : string) (id : Z) (n : Node) (w : World) :
  let r := visualizeWaypoints wp ns id n w in
  node_of r = n /\
  exists t,
    calls_of r
    = [TimeNow t; VisuPublish (waypoints_marker (gmap_frame_id_ n) t ns id wp)] /\
    length (Marker.points (waypoints_marker (gmap_frame_id_ n) t ns id wp))
    = (2 * length wp)%nat /\
    segment_starts (Marker.points (waypoints_marker (gmap_frame_id_ n) t ns id wp))
    = map (fun it => Point.mk (Pose2d.x it) (Pose2d.y it) 0%float) wp.
Proof.
  cbv zeta. unfold_methods.
  destruct (ros_Time_now w) as [t w1]. cbn [fst snd].
  split; [reflexivity|]. exists t.
  split; [reflexivity|]. cbn [waypoints_marker Marker.points].
  apply waypoint_segments.
Qed.

(** X17.  The markers of a goal request.  When no valid path is found none is
    published.  Otherwise there are exactly two, in this order: the
    global path as a blue [LINE_STRIP] in namespace ["global_path"] with
    id 1 and one point per point of the path the planner returned, then
    the waypoints marker with id 3 built from the waypoints the planner
    returned; both are stamped with the stored frame. *)
Theorem goal_request_markers (goal : PoseStamped.t) (n : Node) (w : World) :
  let tr := calls_of (updateGoal goal n w) in
  (existsb valid_path_yes tr = false /\ published_markers tr = []) \/
  (exists path_raw wp t1 t2,
      existsb valid_path_yes tr = true /\
      global_paths_read tr = [path_raw] /\
      waypoints_read tr = [wp] /\
      published_markers tr
      = [ Marker.mk (Header.mk 0 t1 (gmap_frame_id_ n)) "global_path" 1
            Marker.LINE_STRIP Marker.ADD scale_0_1f scale_0_1f
            (ColorRGBA.mk 0%float 0%float 1%float 0.75%float)
            (map (fun it => Point.mk (Point2d.x it) (Point2d.y it) 0%float)
                 path_raw);
          waypoints_marker (gmap_frame_id_ n) t2 "waypoints" 3 wp ]).
Proof.
  unfold_methods. change (1 =? 1) with true. cbn [negb].
  repeat step; cbn;
    first [ left; split; reflexivity
          | right; do 4 eexists; repeat split; reflexivity ].
Qed.

End Messages.
